(** * FX tenor dates: a shallow embedding of [tenor_dates.py]

    The class [TenorDates] computes the market-convention dates of a
    currency pair: business days, valid spot and expiry days, the walks to
    the next or previous such day, the spot date of a horizon date and the
    expiry date of a market tenor.

    Modelling decisions.
    - A [datetime] is its proleptic Gregorian ordinal ([toordinal()], a [Z]);
      [year], [month] and [day] are recovered by CPython's [_ord2ymd].  The
      time of day is carried along unchanged by the program and never
      inspected, so it is left out.  The range of [datetime]
      (0001-01-01 .. 9999-12-31) is kept: leaving it raises [OverflowError].
    - The two pandas calls are modelled on the dates that pandas can hold
      as timestamps; beyond them pandas raises, which is left out, and
      every statement that concludes an answer on a given date assumes
      [in_pandas_range].
    - The [holidays] package is an external calendar: it is the section
      variable [country_holidays], from a country code and a date to [bool].
    - Python exceptions are the constructor [Raise] of [result].
    - The six walks are recursive without a bound of their own and the
      month roll-back is a [while] loop: they take a [fuel] (the number of
      nested calls, respectively iterations, allowed) and answer [OutOfFuel]
      when it is used up.  For a walk the fuel is the number of nested
      calls that fit under the interpreter's recursion limit, and CPython
      turns its exhaustion into [RecursionError], which the program never
      handles: [at_recursion_limit]. *)

From Stdlib Require Import ZArith List Bool String Ascii Lia Sorted.
Import ListNotations.

Local Open Scope string_scope.
Local Open Scope Z_scope.

(** ** Exceptions and results *)

Inductive exn : Type :=
| AssertionError (msg : string)
| InputError (msg : string)
| ValueError (literal : string)
| IndexError
| KeyError (key : string)
| OverflowError
| RecursionError.

Inductive result (A : Type) : Type :=
| Ok (a : A)
| Raise (e : exn)
| OutOfFuel.

Arguments Ok {A} a.
Arguments Raise {A} e.
Arguments OutOfFuel {A}.

Definition bind {A B : Type} (m : result A) (k : A -> result B) : result B :=
  match m with
  | Ok a => k a
  | Raise e => Raise e
  | OutOfFuel => OutOfFuel
  end.

Notation "x <- m ;; k" := (bind m (fun x => k))
  (at level 61, m at next level, right associativity).

(** [assert cond, msg] *)
Definition assert (cond : bool) (msg : string) : result unit :=
  if cond then Ok tt else Raise (AssertionError msg).


(** A computation that takes fuel returns [a] when every large enough fuel
    gives [Ok a]. *)
Definition returns {A : Type} (f : nat -> result A) (a : A) : Prop :=
  exists n0 : nat, forall n : nat, (n0 <= n)%nat -> f n = Ok a.

(** ** Calendar dates, after CPython's [datetime] *)

Module Calendar.

Definition datetime := Z.

Definition MINYEAR : Z := 1.
Definition MAXYEAR : Z := 9999.

Definition _DAYS_IN_MONTH : list Z :=
  [-1; 31; 28; 31; 30; 31; 30; 31; 31; 30; 31; 30; 31].

Definition _DAYS_BEFORE_MONTH : list Z :=
  [-1; 0; 31; 59; 90; 120; 151; 181; 212; 243; 273; 304; 334].

Definition _is_leap (year : Z) : bool :=
  (year mod 4 =? 0) && (negb (year mod 100 =? 0) || (year mod 400 =? 0)).

Definition _days_before_year (year : Z) : Z :=
  let y := year - 1 in
  y * 365 + y / 4 - y / 100 + y / 400.

Definition _days_in_month (year month : Z) : Z :=
  if (month =? 2) && _is_leap year then 29
  else nth (Z.to_nat month) _DAYS_IN_MONTH 0.

Definition _days_before_month (year month : Z) : Z :=
  nth (Z.to_nat month) _DAYS_BEFORE_MONTH 0
  + (if (2 <? month) && _is_leap year then 1 else 0).

Definition _ymd2ord (year month day : Z) : Z :=
  _days_before_year year + _days_before_month year month + day.

Definition _DI400Y : Z := Eval cbv in _days_before_year 401.
Definition _DI100Y : Z := Eval cbv in _days_before_year 101.
Definition _DI4Y : Z := Eval cbv in _days_before_year 5.

Definition _ord2ymd (n0 : Z) : Z * Z * Z :=
  let n := n0 - 1 in
  let n400 := n / _DI400Y in
  let n := n mod _DI400Y in
  let year := n400 * 400 + 1 in
  let n100 := n / _DI100Y in
  let n := n mod _DI100Y in
  let n4 := n / _DI4Y in
  let n := n mod _DI4Y in
  let n1 := n / 365 in
  let n := n mod 365 in
  let year := year + (n100 * 100 + n4 * 4 + n1) in
  if (n1 =? 4) || (n100 =? 4) then (year - 1, 12, 31)
  else
    let leapyear := (n1 =? 3) && (negb (n4 =? 24) || (n100 =? 3)) in
    let month := Z.shiftr (n + 50) 5 in
    let preceding :=
      nth (Z.to_nat month) _DAYS_BEFORE_MONTH 0
      + (if (2 <? month) && leapyear then 1 else 0) in
    if n <? preceding then
      let month := month - 1 in
      let preceding :=
        preceding - (nth (Z.to_nat month) _DAYS_IN_MONTH 0
                     + (if (month =? 2) && leapyear then 1 else 0)) in
      (year, month, n - preceding + 1)
    else (year, month, n - preceding + 1).

(** [datetime.min.toordinal()] and [datetime.max.toordinal()] *)
Definition MINORD : Z := 1.
Definition MAXORD : Z := Eval cbv in _ymd2ord MAXYEAR 12 31.

Definition valid_date (d : datetime) : Prop := MINORD <= d <= MAXORD.

Definition in_range (d : Z) : bool := (MINORD <=? d) && (d <=? MAXORD).

Definition year (d : datetime) : Z := fst (fst (_ord2ymd d)).
Definition month (d : datetime) : Z := snd (fst (_ord2ymd d)).
Definition day (d : datetime) : Z := snd (_ord2ymd d).

(** [datetime(year, month, day)]; only used to write down concrete dates. *)
Definition mkdate (y m d : Z) : datetime := _ymd2ord y m d.

(** [date.weekday()]: Monday is 0, Sunday is 6. *)
Definition weekday (d : datetime) : Z := (d + 6) mod 7.

(** [date + timedelta(days = n)].  [timedelta] itself overflows beyond
    999999999 days, which is outside the range of dates anyway. *)
Definition add_days (d : datetime) (n : Z) : result datetime :=
  if in_range (d + n) then Ok (d + n) else Raise OverflowError.

(** [dt.replace(year, month, day)], for a day that exists in the month. *)
Definition replace_ymd (y m d : Z) : result datetime :=
  if (MINYEAR <=? y) && (y <=? MAXYEAR) then Ok (_ymd2ord y m d)
  else Raise (ValueError "year is out of range").

(** [dt + relativedelta(months = n)] of [dateutil]: the constructor
    moves whole years out of the months ([_fix]), the addition moves the
    month, clamps the day to the length of the new month and replaces
    the three fields. *)
Definition add_months (dt : datetime) (n : Z) : result datetime :=
  let s := if n <? 0 then -1 else 1 in
  let years := (if 11 <? Z.abs n then (n * s) / 12 * s else 0) in
  let months := (if 11 <? Z.abs n then (n * s) mod 12 * s else n) in
  let year0 := year dt + years in
  let month0 := month dt + months in
  let '(year1, month1) :=
    if negb (months =? 0) then
      if 12 <? month0 then (year0 + 1, month0 - 12)
      else if month0 <? 1 then (year0 - 1, month0 + 12)
      else (year0, month0)
    else (year0, month dt) in
  let day1 := Z.min (_days_in_month year1 month1) (day dt) in
  replace_ymd year1 month1 day1.

(** [bool(len(pd.bdate_range(date, date)))]: the date is Monday..Friday.
    This is the answer of pandas on the dates it can hold; on the others
    it raises [OutOfBoundsDatetime], which is left out (see
    [in_pandas_range]). *)
Definition is_weekday (d : datetime) : bool := weekday d <? 5.

(** Dates on which pandas answers.  Its timestamps count nanoseconds and
    reach from 1677-09-21 to 2262-04-11; the years 1678 to 2261 lie well
    inside, whatever the time of day. *)
Definition PANDAS_MIN : Z := Eval cbv in _ymd2ord 1678 1 1.
Definition PANDAS_MAX : Z := Eval cbv in _ymd2ord 2261 12 31.

Definition in_pandas_range (d : datetime) : Prop :=
  PANDAS_MIN <= d <= PANDAS_MAX.

End Calendar.
Export Calendar.

(** ** Python strings *)

Module PyStr.

(** [sub in s] *)
Fixpoint contains (sub s : string) : bool :=
  prefix sub s
  || match s with
     | EmptyString => false
     | String _ s' => contains sub s'
     end.

(** [s.replace(old, new)] for a non-empty [old]: the occurrences are taken
    from the left and do not overlap; [skip] counts the characters of the
    occurrence just replaced that are still to be dropped. *)
Fixpoint replace_from (old new : string) (skip : nat) (s : string) : string :=
  match s with
  | EmptyString => EmptyString
  | String c s' =>
      match skip with
      | S k => replace_from old new k s'
      | O =>
          if prefix old s
          then new ++ replace_from old new (String.length old - 1) s'
          else String c (replace_from old new 0 s')
      end
  end.

Definition replace (s old new : string) : string := replace_from old new 0 s.

(** [s[i:j]] for [0 <= i <= j] *)
Definition slice (s : string) (i j : nat) : string := substring i (j - i) s.

(** [s[-1]]; raises [IndexError] on the empty string *)
Fixpoint last_char (s : string) : result ascii :=
  match s with
  | EmptyString => Raise IndexError
  | String c EmptyString => Ok c
  | String _ s' => last_char s'
  end.

(** [s[:-1]] *)
Fixpoint but_last (s : string) : string :=
  match s with
  | EmptyString => EmptyString
  | String _ EmptyString => EmptyString
  | String c s' => String c (but_last s')
  end.

Definition mem (s : string) (l : list string) : bool :=
  existsb (String.eqb s) l.

(** The white space that [int] skips around a literal, among the code
    points below 256: tab to carriage return, space, NEL and the
    no-break space. *)
Definition is_space (c : ascii) : bool :=
  let n := Z.of_nat (nat_of_ascii c) in
  ((9 <=? n) && (n <=? 13)) || (n =? 32) || (n =? 133) || (n =? 160).

Definition digit_value (c : ascii) : option Z :=
  let n := Z.of_nat (nat_of_ascii c) in
  if (48 <=? n) && (n <=? 57) then Some (n - 48) else None.

Fixpoint lstrip (s : string) : string :=
  match s with
  | EmptyString => EmptyString
  | String c s' => if is_space c then lstrip s' else s
  end.

Definition reverse (s : string) : string :=
  string_of_list_ascii (rev (list_ascii_of_string s)).

Definition strip (s : string) : string :=
  reverse (lstrip (reverse (lstrip s))).

(** The digits of a decimal literal; single underscores may separate
    digits.  [prev_us] tells whether the previous character was one. *)
Fixpoint scan_digits (acc : Z) (prev_us : bool) (s : string) : option Z :=
  match s with
  | EmptyString => if prev_us then None else Some acc
  | String c s' =>
      if Ascii.eqb c "_"
      then (if prev_us then None else scan_digits acc true s')
      else match digit_value c with
           | Some v => scan_digits (acc * 10 + v) false s'
           | None => None
           end
  end.

Definition literal_body (s : string) : option Z :=
  match s with
  | EmptyString => None
  | String c _ => if Ascii.eqb c "_" then None else scan_digits 0 false s
  end.

(** [int(s)] in base 10: surrounding white space, an optional sign, then
    the digits.  Anything else raises [ValueError] naming the literal.
    (Python 3.11 also refuses literals of more than 4300 digits; such
    numbers are far outside the range of dates.) *)
Definition int (s : string) : result Z :=
  let t := strip s in
  let '(sign, body) :=
    match t with
    | String c b =>
        if Ascii.eqb c "-" then (-1, b)
        else if Ascii.eqb c "+" then (1, b)
        else (1, t)
    | EmptyString => (1, t)
    end in
  match literal_body body with
  | Some v => Ok (sign * v)
  | None => Raise (ValueError s)
  end.

End PyStr.

(** ** Formatting and containers *)

Module PyFmt.

(** [%a] and [%b] in the C locale. *)
Definition day_abbr : list string :=
  ["Mon"; "Tue"; "Wed"; "Thu"; "Fri"; "Sat"; "Sun"].

Definition month_abbr : list string :=
  ["Jan"; "Feb"; "Mar"; "Apr"; "May"; "Jun";
   "Jul"; "Aug"; "Sep"; "Oct"; "Nov"; "Dec"].

Definition digit (n : Z) : ascii := ascii_of_nat (48 + Z.to_nat n).

(** [%d]: the day of the month on two digits. *)
Definition two_digits (n : Z) : string :=
  String (digit (n / 10)) (String (digit (n mod 10)) EmptyString).

(** [%Y] as glibc prints it: the year in decimal, without padding (a
    year has at most four digits). *)
Definition year_digits (y : Z) : string :=
  let d3 := digit (y / 1000) in
  let d2 := digit (y / 100 mod 10) in
  let d1 := digit (y / 10 mod 10) in
  let d0 := digit (y mod 10) in
  if y <? 10 then String d0 EmptyString
  else if y <? 100 then String d1 (String d0 EmptyString)
  else if y <? 1000 then String d2 (String d1 (String d0 EmptyString))
  else String d3 (String d2 (String d1 (String d0 EmptyString))).

(** [date.strftime("%a %d-%b-%Y")], as in "Wed 11-Jun-2014". *)
Definition strftime (d : datetime) : string :=
  nth (Z.to_nat (weekday d)) day_abbr ""
  ++ " " ++ two_digits (day d)
  ++ "-" ++ nth (Z.to_nat (month d - 1)) month_abbr ""
  ++ "-" ++ year_digits (year d).

(** The dates from [a] to [b], both included; none when [b < a]. *)
Definition date_span (a b : datetime) : list datetime :=
  map (fun i => a + Z.of_nat i) (seq 0 (Z.to_nat (b - a + 1))).

(** [pd.bdate_range(start, end)]: the Mondays to Fridays from [start] to
    [end], in ascending order.  This is the answer of pandas for two
    dates it can hold; for the others it raises [OutOfBoundsDatetime],
    which is left out (see [in_pandas_range]). *)
Definition pd_bdate_range (start_date end_date : datetime) : list datetime :=
  filter is_weekday (date_span start_date end_date).

(** [[x for x in l if P(x)]] for a test that may raise: the elements are
    tested from the left, the first exception ends the comprehension. *)
Fixpoint filter_result {A : Type} (P : A -> result bool) (l : list A)
  : result (list A) :=
  match l with
  | [] => Ok []
  | x :: l' =>
      b <- P x ;;
      r <- filter_result P l' ;;
      Ok (if b then x :: r else r)
  end.

(** [[f(x) for x in l]] for an [f] that may raise. *)
Fixpoint map_result {A B : Type} (f : A -> result B) (l : list A)
  : result (list B) :=
  match l with
  | [] => Ok []
  | x :: l' =>
      y <- f x ;;
      r <- map_result f l' ;;
      Ok (y :: r)
  end.

(** A dictionary from strings to lists of strings, in insertion order. *)
Definition dict : Type := list (string * list string).

(** A data frame of strings: the column labels and the rows; a missing
    cell is [None]. *)
Record DataFrame : Type :=
  { columns : list string;
    rows : list (list (option string)) }.

(** [pd.DataFrame.from_dict(d, orient = "index").transpose()]: one column
    per key, as many rows as the longest list, shorter lists filled up
    with missing cells. *)
Definition frame_of_dict (d : dict) : DataFrame :=
  let n := fold_right Nat.max 0%nat (map (fun kv => List.length (snd kv)) d) in
  {| columns := map fst d;
     rows := map (fun i => map (fun kv => nth_error (snd kv) i) d) (seq 0 n) |}.

End PyFmt.

(** ** The class [TenorDates] *)

Definition standard_tenors : list string :=
  ["ON"; "1W"; "2W"; "1M"; "2M"; "3M"; "6M"; "9M"; "1Y"; "2Y"; "5Y"; "10Y"].

Definition supported_ccy : list string :=
  ["USD"; "GBP"; "EUR"; "JPY"; "CHF"; "AUD"; "CAD"; "NZD"; "SEK"; "NOK"].

(** The dictionary [ccy_country_code], in the order of the source. *)
Definition ccy_country_code_items : list (string * (string * string)) :=
  [ ("USD", ("United States", "US"));
    ("GBP", ("United Kingdom", "GB"));
    ("EUR", ("Europe", "ECB"));
    ("JPY", ("Japan", "JP"));
    ("CHF", ("Switzerland", "CH"));
    ("AUD", ("Australia", "AU"));
    ("CAD", ("Canada", "CA"));
    ("NZD", ("New Zealand", "NZ"));
    ("SEK", ("Sweden", "SE"));
    ("NOK", ("Norway", "NO")) ].

Fixpoint lookup (key : string) (items : list (string * (string * string)))
  : option (string * string) :=
  match items with
  | [] => None
  | (k, v) :: rest => if String.eqb key k then Some v else lookup key rest
  end.

(** [self.ccy_country_code[key][1]]; a missing key raises [KeyError]. *)
Definition country_code (key : string) : result string :=
  match lookup key ccy_country_code_items with
  | Some v => Ok (snd v)
  | None => Raise (KeyError key)
  end.

Record TenorDates : Type := { ccy : string }.

(** A list of plain strings as an f-string prints it. *)
Definition list_repr (l : list string) : string :=
  "[" ++ String.concat ", " (map (fun x => "'" ++ x ++ "'") l) ++ "]".

(** The message of the assertion of [__init__]. *)
Definition init_message : string :=
  "ccy input must be in the form of 'CCY1CCY2'! Supported currencies: "
  ++ list_repr supported_ccy.

(** [TenorDates.__init__] *)
Definition init (ccy0 : string) : result TenorDates :=
  _ <- assert ((String.length ccy0 =? 6)%nat
               && PyStr.mem (PyStr.slice ccy0 0 3) supported_ccy
               && PyStr.mem (PyStr.slice ccy0 3 6) supported_ccy)
         init_message ;;
  Ok {| ccy := ccy0 |}.

(** The pairs settling one day after the horizon. *)
Definition fast_settling : list string :=
  ["USDCAD"; "USDTRY"; "USDPHP"; "USDRUB"].

Definition invalid_tenor_message : string :=
  "Invalid input, must be in the form: 'ON', '5W', '7M', '1Y' etc...".

Section Engine.

(** [date in holidays.country_holidays(code)] *)
Variable country_holidays : string -> datetime -> bool.

Variable self : TenorDates.

Definition is_business_day (date : datetime) : result bool :=
  if PyStr.contains "USD" (ccy self) then
    let ccy0 := PyStr.replace (ccy self) "USD" "" in
    code <- country_code ccy0 ;;
    Ok (is_weekday date && negb (country_holidays code date))
  else
    let ccy1 := PyStr.slice (ccy self) 0 3 in
    code1 <- country_code ccy1 ;;
    let ccy2 := PyStr.slice (ccy self) 3 6 in
    code2 <- country_code ccy2 ;;
    Ok (is_weekday date
        && negb (country_holidays code1 date)
        && negb (country_holidays code2 date)).

Definition is_valid_spot (date : datetime) : result bool :=
  us <- country_code "USD" ;;
  b <- is_business_day date ;;
  Ok (b && negb (country_holidays us date)).

Definition is_valid_expiry (date : datetime) : result bool :=
  let ccy1 := PyStr.slice (ccy self) 0 3 in
  code1 <- country_code ccy1 ;;
  let ccy2 := PyStr.slice (ccy self) 3 6 in
  code2 <- country_code ccy2 ;;
  Ok (is_weekday date
      && negb ((day date =? 1) && (month date =? 1))
      && (negb (country_holidays code1 date)
          || negb (country_holidays code2 date))).

Fixpoint next_business_day (fuel : nat) (date : datetime) : result datetime :=
  match fuel with
  | O => OutOfFuel
  | S fuel' =>
      date' <- add_days date 1 ;;
      b <- is_business_day date' ;;
      if b then Ok date' else next_business_day fuel' date'
  end.

Fixpoint prev_business_day (fuel : nat) (date : datetime) : result datetime :=
  match fuel with
  | O => OutOfFuel
  | S fuel' =>
      date' <- add_days date (-1) ;;
      b <- is_business_day date' ;;
      if b then Ok date' else prev_business_day fuel' date'
  end.

Fixpoint next_valid_spot (fuel : nat) (date : datetime) : result datetime :=
  match fuel with
  | O => OutOfFuel
  | S fuel' =>
      date' <- add_days date 1 ;;
      b <- is_valid_spot date' ;;
      if b then Ok date' else next_valid_spot fuel' date'
  end.

Fixpoint prev_valid_spot (fuel : nat) (date : datetime) : result datetime :=
  match fuel with
  | O => OutOfFuel
  | S fuel' =>
      date' <- add_days date (-1) ;;
      b <- is_valid_spot date' ;;
      if b then Ok date' else prev_valid_spot fuel' date'
  end.

Fixpoint next_valid_expiry (fuel : nat) (date : datetime) : result datetime :=
  match fuel with
  | O => OutOfFuel
  | S fuel' =>
      date' <- add_days date 1 ;;
      b <- is_valid_expiry date' ;;
      if b then Ok date' else next_valid_expiry fuel' date'
  end.

Fixpoint prev_valid_expiry (fuel : nat) (date : datetime) : result datetime :=
  match fuel with
  | O => OutOfFuel
  | S fuel' =>
      date' <- add_days date (-1) ;;
      b <- is_valid_expiry date' ;;
      if b then Ok date' else prev_valid_expiry fuel' date'
  end.

Definition spot_from_horizon (fuel : nat) (horizon_date : datetime)
  : result datetime :=
  b <- is_business_day horizon_date ;;
  _ <- assert b "Horizon date is not a business day!" ;;
  if PyStr.mem (ccy self) fast_settling then
    next_valid_spot fuel horizon_date
  else
    next_business_day0 <- next_business_day fuel horizon_date ;;
    next_valid_spot fuel next_business_day0.

Definition horizon_from_spot (fuel : nat) (spot_date : datetime)
  : result datetime :=
  b <- is_valid_spot spot_date ;;
  _ <- assert b "Spot date is not valid!" ;;
  if PyStr.mem (ccy self) fast_settling then
    prev_valid_expiry fuel spot_date
  else
    prev_business_day0 <- prev_business_day fuel spot_date ;;
    prev_valid_expiry fuel prev_business_day0.

(** The loop of [expiry_from_tenor]:
    [while (delivery_date.month - spot_date.month) > n_months:
         delivery_date = self.prev_valid_spot(date = delivery_date)];
    [iters] bounds the number of iterations. *)
Fixpoint roll_back (fuel iters : nat) (spot_date : datetime) (n_months : Z)
  (delivery_date : datetime) : result datetime :=
  if n_months <? month delivery_date - month spot_date then
    match iters with
    | O => OutOfFuel
    | S iters' =>
        delivery_date' <- prev_valid_spot fuel delivery_date ;;
        roll_back fuel iters' spot_date n_months delivery_date'
    end
  else Ok delivery_date.

(** The delivery date of [expiry_from_tenor] for a tenor of [n_months]
    months: the spot date moved by the months, snapped forward to a valid
    spot, then rolled back by the loop. *)
Definition delivery_from_spot (fuel : nat) (spot_date : datetime)
  (n_months : Z) : result datetime :=
  delivery_date <- add_months spot_date n_months ;;
  b <- is_valid_spot delivery_date ;;
  delivery_date <- (if negb b then next_valid_spot fuel delivery_date
                    else Ok delivery_date) ;;
  roll_back fuel fuel spot_date n_months delivery_date.

(** The branch of [expiry_from_tenor] shared by the tenors in months and
    in years, from the month count on. *)
Definition expiry_from_months (fuel : nat) (horizon_date : datetime)
  (n_months : Z) : result datetime :=
  spot_date <- spot_from_horizon fuel horizon_date ;;
  delivery_date <- delivery_from_spot fuel spot_date n_months ;;
  expiry <- horizon_from_spot fuel delivery_date ;;
  b <- is_valid_expiry expiry ;;
  if b then Ok expiry else prev_valid_expiry fuel expiry.

(** The branches in days and in weeks, from the number of days on. *)
Definition expiry_from_days (fuel : nat) (horizon_date : datetime)
  (days : Z) : result datetime :=
  expiry <- add_days horizon_date days ;;
  b <- is_valid_expiry expiry ;;
  if b then Ok expiry else next_valid_expiry fuel expiry.

Definition expiry_from_tenor (fuel : nat) (horizon_date : datetime)
  (tenor : string) : result datetime :=
  if String.eqb tenor "ON" then next_valid_expiry fuel horizon_date
  else
    suffix <- PyStr.last_char tenor ;;
    if Ascii.eqb suffix "D" then
      n <- PyStr.int (PyStr.but_last tenor) ;;
      expiry_from_days fuel horizon_date n
    else if Ascii.eqb suffix "W" then
      n <- PyStr.int (PyStr.but_last tenor) ;;
      expiry_from_days fuel horizon_date (n * 7)
    else if Ascii.eqb suffix "M" || Ascii.eqb suffix "Y" then
      n_months <- (if Ascii.eqb suffix "M"
                   then PyStr.int (PyStr.but_last tenor)
                   else n <- PyStr.int (PyStr.but_last tenor) ;; Ok (n * 12)) ;;
      expiry_from_months fuel horizon_date n_months
    else Raise (InputError invalid_tenor_message).

(** What [populate_expiry_dates] returns: the dictionary, or the data
    frame made from it. *)
Inductive expiry_report : Type :=
| ReportDict (d : PyFmt.dict)
| ReportFrame (df : PyFmt.DataFrame).

Definition populate_expiry_dates (fuel : nat) (horizon_date : datetime)
  (return_df : bool) : result expiry_report :=
  let horizon := [PyFmt.strftime horizon_date] in
  let tenor := standard_tenors in
  expiry <- PyFmt.map_result
              (fun tenor0 =>
                 e <- expiry_from_tenor fuel horizon_date tenor0 ;;
                 Ok (PyFmt.strftime e))
              standard_tenors ;;
  let expiry_dates :=
    [("Horizon", horizon); ("Tenor", tenor); ("Expiry Date", expiry)] in
  if return_df then Ok (ReportFrame (PyFmt.frame_of_dict expiry_dates))
  else Ok (ReportDict expiry_dates).

Definition bdate_range (start_date end_date : datetime)
  : result (list datetime) :=
  let b_dates := PyFmt.pd_bdate_range start_date end_date in
  PyFmt.filter_result is_business_day b_dates.

End Engine.

(** ** Specification vocabulary *)

(** [r] is the nearest date strictly after [d] on which [P] holds. *)
Definition nearest_after (P : datetime -> result bool) (d r : datetime) : Prop :=
  d < r /\ P r = Ok true /\ forall x, d < x < r -> P x = Ok false.

(** [r] is the nearest date strictly before [d] on which [P] holds. *)
Definition nearest_before (P : datetime -> result bool) (d r : datetime) : Prop :=
  r < d /\ P r = Ok true /\ forall x, r < x < d -> P x = Ok false.

(** The number of calendar months from [a] to [b], years included. *)
Definition month_distance (a b : datetime) : Z :=
  (year b - year a) * 12 + (month b - month a).



(** The first of January of year [y] reads back as day 1 of month 1. *)
Definition new_year_ok (y : Z) : bool :=
  (day (mkdate y 1 1) =? 1) && (month (mkdate y 1 1) =? 1).

(** The boolean that a test answers; [false] when it raises. *)
Definition holds {A : Type} (P : A -> result bool) (x : A) : bool :=
  match P x with
  | Ok true => true
  | _ => false
  end.

(** The pairs that [init] accepts are the concatenations of two supported
    currency codes. *)
Definition pair (ccy1 ccy2 : string) : TenorDates := {| ccy := ccy1 ++ ccy2 |}.

(** The country code of a supported currency ([""] otherwise). *)
Definition code_of (c : string) : string :=
  match lookup c ccy_country_code_items with
  | Some v => snd v
  | None => ""
  end.

(** The walk shared by the six directional searches: move by [step] days
    until [P] holds. *)
Section Walk.

Variable P : datetime -> result bool.
Variable step : Z.

Fixpoint walk (fuel : nat) (date : datetime) : result datetime :=
  match fuel with
  | O => OutOfFuel
  | S fuel' =>
      date' <- add_days date step ;;
      b <- P date' ;;
      if b then Ok date' else walk fuel' date'
  end.

End Walk.

(** ** Calendars used in the examples *)

(** A calendar of fixed-date holidays: New Year's Day and Christmas Day
    everywhere, Independence Day in the US, Labour Day and the 26th of
    December for the ECB. *)
Definition fixed_holidays (code : string) (d : datetime) : bool :=
  let m := month d in
  let dd := day d in
  ((m =? 1) && (dd =? 1)) || ((m =? 12) && (dd =? 25))
  || (String.eqb code "US" && (m =? 7) && (dd =? 4))
  || (String.eqb code "ECB"
      && (((m =? 5) && (dd =? 1)) || ((m =? 12) && (dd =? 26)))).

(** A calendar without any holiday. *)
Definition no_holidays (code : string) (d : datetime) : bool := false.

Definition EURUSD : TenorDates := pair "EUR" "USD".
Definition USDCAD : TenorDates := pair "USD" "CAD".
Definition EURGBP : TenorDates := pair "EUR" "GBP".
Definition USDUSD : TenorDates := pair "USD" "USD".

(** The report of the standard tenors of EURUSD on Wednesday 2014-06-11,
    as a dictionary. *)
Definition report_2014_06_11 : expiry_report :=
  ReportDict
    [("Horizon", ["Wed 11-Jun-2014"]);
     ("Tenor", standard_tenors);
     ("Expiry Date",
      ["Thu 12-Jun-2014"; "Wed 18-Jun-2014"; "Wed 25-Jun-2014";
       "Thu 10-Jul-2014"; "Mon 11-Aug-2014"; "Thu 11-Sep-2014";
       "Thu 11-Dec-2014"; "Wed 11-Mar-2015"; "Thu 11-Jun-2015";
       "Thu 09-Jun-2016"; "Tue 11-Jun-2019"; "Tue 11-Jun-2024"])].

(** * Facts *)

(** ** Results and dates *)

Lemma bind_ok {A B : Type} (m : result A) (k : A -> result B) (b : B) :
  bind m k = Ok b -> exists a, m = Ok a /\ k a = Ok b.
Proof. destruct m; simpl; intros H; try discriminate; eauto. Qed.

Lemma in_range_valid (d : datetime) : in_range d = true <-> valid_date d.
Proof.
  unfold in_range, valid_date.
  rewrite andb_true_iff, !Z.leb_le. tauto.
Qed.

Lemma add_days_ok (d n : Z) : valid_date (d + n) -> add_days d n = Ok (d + n).
Proof.
  intros H. unfold add_days.
  apply in_range_valid in H. now rewrite H.
Qed.

Lemma add_days_inv (d n r : Z) :
  add_days d n = Ok r -> r = d + n /\ valid_date r.
Proof.
  unfold add_days. destruct (in_range (d + n)) eqn:E; intros H; inversion H.
  subst. split; [reflexivity | now apply in_range_valid].
Qed.

(** Every year of [datetime] starts on day 1 of month 1. *)
Lemma new_year_fields (y : Z) :
  MINYEAR <= y <= MAXYEAR ->
  day (mkdate y 1 1) = 1 /\ month (mkdate y 1 1) = 1.
Proof.
  intros Hy.
  assert (A : forallb new_year_ok
                (map Z.of_nat (seq 1 (Z.to_nat MAXYEAR))) = true)
    by (vm_compute; reflexivity).
  rewrite forallb_forall in A.
  assert (I : In y (map Z.of_nat (seq 1 (Z.to_nat MAXYEAR)))).
  { apply in_map_iff. exists (Z.to_nat y).
    unfold MINYEAR, MAXYEAR in *. split; [ lia | apply in_seq; lia ]. }
  apply A in I. unfold new_year_ok in I.
  apply andb_true_iff in I as (D & M).
  now apply Z.eqb_eq in D, M.
Qed.

Lemma returns_unique {A : Type} (f : nat -> result A) (a b : A) :
  returns f a -> returns f b -> a = b.
Proof.
  intros [n Ha] [m Hb].
  specialize (Ha (Nat.max n m) (Nat.le_max_l _ _)).
  specialize (Hb (Nat.max n m) (Nat.le_max_r _ _)).
  congruence.
Qed.

Lemma nearest_after_unique P d r r' :
  nearest_after P d r -> nearest_after P d r' -> r = r'.
Proof.
  intros (H1 & H2 & H3) (H1' & H2' & H3').
  destruct (Z.lt_trichotomy r r') as [L | [E | L]]; trivial.
  - specialize (H3' r (conj H1 L)). congruence.
  - specialize (H3 r' (conj H1' L)). congruence.
Qed.

Lemma nearest_before_unique P d r r' :
  nearest_before P d r -> nearest_before P d r' -> r = r'.
Proof.
  intros (H1 & H2 & H3) (H1' & H2' & H3').
  destruct (Z.lt_trichotomy r r') as [L | [E | L]]; trivial.
  - specialize (H3 r' (conj L H1')). congruence.
  - specialize (H3' r (conj L H1)). congruence.
Qed.

Lemma returns_bind {A B : Type} (f : nat -> result A)
  (g : A -> nat -> result B) (a : A) (b : B) :
  returns f a -> returns (g a) b -> returns (fun n => x <- f n ;; g x n) b.
Proof.
  intros [n Hf] [m Hg]. exists (Nat.max n m). intros k Hk.
  rewrite Hf by lia. simpl. apply Hg. lia.
Qed.

Lemma mem_In (x : string) (l : list string) : PyStr.mem x l = true <-> In x l.
Proof.
  unfold PyStr.mem. rewrite existsb_exists. split.
  - intros (y & Hy & E). apply String.eqb_eq in E. now subst.
  - intros H. exists x. split; trivial. apply String.eqb_refl.
Qed.

(** ** The walk *)

Section WalkFacts.

Variable P : datetime -> result bool.

(** One unfolding of the walk, by cases on what it meets. *)
Ltac walk_step H d s :=
  simpl in H; unfold add_days in H;
  destruct (in_range (d + s)) eqn:?R; simpl in H; [ | discriminate ];
  destruct (P (d + s)) as [ [ | ] | | ] eqn:?HP; simpl in H;
  try discriminate.

Lemma walk_up_sound (fuel : nat) :
  forall d r, walk P 1 fuel d = Ok r ->
    nearest_after P d r /\ valid_date r /\ r - d <= Z.of_nat fuel.
Proof.
  induction fuel as [ | fuel IH]; intros d r H; [ discriminate | ].
  walk_step H d 1.
  - inversion H; subst r. apply in_range_valid in R.
    split; [ | split; [ exact R | lia ] ].
    split; [ lia | split; [ exact HP | intros x Hx; lia ] ].
  - destruct (IH _ _ H) as ((L & T & N) & V & B).
    split; [ | split; [ exact V | lia ] ].
    split; [ lia | split; [ exact T | ] ].
    intros x Hx. destruct (Z.eq_dec x (d + 1)) as [-> | Hne]; trivial.
    apply N; lia.
Qed.

Lemma walk_up_complete (fuel : nat) :
  forall d r, valid_date d -> valid_date r -> nearest_after P d r ->
    r - d <= Z.of_nat fuel -> walk P 1 fuel d = Ok r.
Proof.
  induction fuel as [ | fuel IH]; intros d r Vd Vr (L & T & N) B; [ lia | ].
  simpl. rewrite add_days_ok by (unfold valid_date, MINORD in *; lia).
  simpl. destruct (Z.eq_dec r (d + 1)) as [-> | Hne].
  - now rewrite T.
  - rewrite (N (d + 1)) by lia. simpl.
    apply IH; try lia; trivial.
    + unfold valid_date, MINORD in *; lia.
    + split; [ lia | split; [ exact T | intros x Hx; apply N; lia ] ].
Qed.

Lemma walk_down_sound (fuel : nat) :
  forall d r, walk P (-1) fuel d = Ok r ->
    nearest_before P d r /\ valid_date r /\ d - r <= Z.of_nat fuel.
Proof.
  induction fuel as [ | fuel IH]; intros d r H; [ discriminate | ].
  walk_step H d (-1).
  - inversion H; subst r. apply in_range_valid in R.
    split; [ | split; [ exact R | lia ] ].
    split; [ lia | split; [ exact HP | intros x Hx; lia ] ].
  - destruct (IH _ _ H) as ((L & T & N) & V & B).
    split; [ | split; [ exact V | lia ] ].
    split; [ lia | split; [ exact T | ] ].
    intros x Hx. destruct (Z.eq_dec x (d + -1)) as [-> | Hne]; trivial.
    apply N; lia.
Qed.

Lemma walk_down_complete (fuel : nat) :
  forall d r, valid_date d -> valid_date r -> nearest_before P d r ->
    d - r <= Z.of_nat fuel -> walk P (-1) fuel d = Ok r.
Proof.
  induction fuel as [ | fuel IH]; intros d r Vd Vr (L & T & N) B; [ lia | ].
  simpl. rewrite add_days_ok by (unfold valid_date, MAXORD in *; lia).
  simpl. destruct (Z.eq_dec r (d + -1)) as [-> | Hne].
  - now rewrite T.
  - rewrite (N (d + -1)) by lia. simpl.
    apply IH; try lia; trivial.
    + unfold valid_date, MAXORD in *; lia.
    + split; [ lia | split; [ exact T | intros x Hx; apply N; lia ] ].
Qed.

(** With enough fuel the walk returns exactly the nearest date. *)
Lemma walk_up_returns (d r : datetime) :
  valid_date d -> valid_date r ->
  (nearest_after P d r <-> returns (fun fuel => walk P 1 fuel d) r).
Proof.
  intros Vd Vr. split.
  - intros N. exists (Z.to_nat (r - d)). intros n Hn.
    apply walk_up_complete; trivial. lia.
  - intros [n0 H]. now apply (walk_up_sound n0), H.
Qed.

Lemma walk_down_returns (d r : datetime) :
  valid_date d -> valid_date r ->
  (nearest_before P d r <-> returns (fun fuel => walk P (-1) fuel d) r).
Proof.
  intros Vd Vr. split.
  - intros N. exists (Z.to_nat (d - r)). intros n Hn.
    apply walk_down_complete; trivial. lia.
  - intros [n0 H]. now apply (walk_down_sound n0), H.
Qed.

(** Once the walk has finished, more fuel does not change its answer. *)
Lemma walk_mono (step : Z) (fuel : nat) :
  forall d, walk P step fuel d <> OutOfFuel ->
    walk P step (S fuel) d = walk P step fuel d.
Proof.
  induction fuel as [ | fuel IH]; intros d H; [ now elim H | ].
  cbn [walk] in *.
  destruct (add_days d step) as [d' | | ]; simpl in *; trivial.
  destruct (P d') as [ [ | ] | | ]; simpl in *; trivial.
  now apply IH.
Qed.

Lemma walk_mono_le (step : Z) (fuel fuel' : nat) (d : datetime) :
  (fuel <= fuel')%nat -> walk P step fuel d <> OutOfFuel ->
  walk P step fuel' d = walk P step fuel d.
Proof.
  induction 1 as [ | m Hle IH]; intros H; trivial.
  rewrite walk_mono; rewrite IH; trivial.
Qed.




End WalkFacts.

(** ** The engine *)

Section EngineFacts.

Variable country_holidays : string -> datetime -> bool.
Variable self : TenorDates.

Abbreviation is_business_day' := (is_business_day country_holidays self).
Abbreviation is_valid_spot' := (is_valid_spot country_holidays self).
Abbreviation is_valid_expiry' := (is_valid_expiry country_holidays self).

(** Each of the six searches is the walk for its predicate and direction. *)
Lemma next_business_day_walk fuel d :
  next_business_day country_holidays self fuel d = walk is_business_day' 1 fuel d.
Proof. reflexivity. Qed.

Lemma prev_business_day_walk fuel d :
  prev_business_day country_holidays self fuel d
  = walk is_business_day' (-1) fuel d.
Proof. reflexivity. Qed.

Lemma next_valid_spot_walk fuel d :
  next_valid_spot country_holidays self fuel d = walk is_valid_spot' 1 fuel d.
Proof. reflexivity. Qed.

Lemma prev_valid_spot_walk fuel d :
  prev_valid_spot country_holidays self fuel d = walk is_valid_spot' (-1) fuel d.
Proof. reflexivity. Qed.

Lemma next_valid_expiry_walk fuel d :
  next_valid_expiry country_holidays self fuel d = walk is_valid_expiry' 1 fuel d.
Proof. reflexivity. Qed.

Lemma prev_valid_expiry_walk fuel d :
  prev_valid_expiry country_holidays self fuel d
  = walk is_valid_expiry' (-1) fuel d.
Proof. reflexivity. Qed.

(** The predicates take no fuel. *)
Lemma country_code_answers key : country_code key <> OutOfFuel.
Proof. unfold country_code. destruct (lookup _ _); discriminate. Qed.

Lemma is_business_day_answers d : is_business_day' d <> OutOfFuel.
Proof.
  unfold is_business_day.
  destruct (PyStr.contains _ _).
  - destruct (country_code _) eqn:E; simpl; try discriminate.
    now apply country_code_answers in E.
  - destruct (country_code _) eqn:E; simpl; try discriminate.
    + destruct (country_code (PyStr.slice (ccy self) 3 6)) eqn:E2;
        simpl; try discriminate.
      now apply country_code_answers in E2.
    + now apply country_code_answers in E.
Qed.

Lemma is_valid_spot_answers d : is_valid_spot' d <> OutOfFuel.
Proof.
  unfold is_valid_spot. simpl.
  pose proof (is_business_day_answers d) as H.
  destruct (is_business_day' d); simpl; congruence.
Qed.

Lemma is_valid_expiry_answers d : is_valid_expiry' d <> OutOfFuel.
Proof.
  unfold is_valid_expiry.
  destruct (country_code _) eqn:E; simpl; try discriminate.
  - destruct (country_code (PyStr.slice (ccy self) 3 6)) eqn:E2;
      simpl; try discriminate.
    now apply country_code_answers in E2.
  - now apply country_code_answers in E.
Qed.

(** C7.  Each directional walk, given enough nested calls, returns the
    nearest date strictly after (respectively strictly before) its input
    on which its predicate holds, and it returns nothing else; the input
    date itself is never returned. *)
Theorem walks_return_nearest (d r : datetime) (fuel : nat)
  (Vd : valid_date d) (Vr : valid_date r) :
  (nearest_after is_business_day' d r
   <-> returns (fun n => next_business_day country_holidays self n d) r)
  /\ (nearest_before is_business_day' d r
      <-> returns (fun n => prev_business_day country_holidays self n d) r)
  /\ (nearest_after is_valid_spot' d r
      <-> returns (fun n => next_valid_spot country_holidays self n d) r)
  /\ (nearest_before is_valid_spot' d r
      <-> returns (fun n => prev_valid_spot country_holidays self n d) r)
  /\ (nearest_after is_valid_expiry' d r
      <-> returns (fun n => next_valid_expiry country_holidays self n d) r)
  /\ (nearest_before is_valid_expiry' d r
      <-> returns (fun n => prev_valid_expiry country_holidays self n d) r)
  /\ next_business_day country_holidays self fuel d <> Ok d
  /\ prev_business_day country_holidays self fuel d <> Ok d
  /\ next_valid_spot country_holidays self fuel d <> Ok d
  /\ prev_valid_spot country_holidays self fuel d <> Ok d
  /\ next_valid_expiry country_holidays self fuel d <> Ok d
  /\ prev_valid_expiry country_holidays self fuel d <> Ok d.
Proof.
  repeat match goal with |- _ /\ _ => split end.
  - exact (walk_up_returns is_business_day' d r Vd Vr).
  - exact (walk_down_returns is_business_day' d r Vd Vr).
  - exact (walk_up_returns is_valid_spot' d r Vd Vr).
  - exact (walk_down_returns is_valid_spot' d r Vd Vr).
  - exact (walk_up_returns is_valid_expiry' d r Vd Vr).
  - exact (walk_down_returns is_valid_expiry' d r Vd Vr).
  - intros H.
    destruct (walk_up_sound is_business_day' fuel d d H) as ((L & _) & _). lia.
  - intros H.
    destruct (walk_down_sound is_business_day' fuel d d H) as ((L & _) & _). lia.
  - intros H.
    destruct (walk_up_sound is_valid_spot' fuel d d H) as ((L & _) & _). lia.
  - intros H.
    destruct (walk_down_sound is_valid_spot' fuel d d H) as ((L & _) & _). lia.
  - intros H.
    destruct (walk_up_sound is_valid_expiry' fuel d d H) as ((L & _) & _). lia.
  - intros H.
    destruct (walk_down_sound is_valid_expiry' fuel d d H) as ((L & _) & _). lia.
Qed.


(** C5.  A date is a valid spot exactly when it is a business day of the
    pair and not a US holiday; the US calendar is consulted for every
    pair.  Hence a valid spot is a business day. *)
Theorem valid_spot_iff (d : datetime) :
  (is_valid_spot' d = Ok true
   <-> is_business_day' d = Ok true /\ country_holidays "US" d = false)
  /\ (is_valid_spot' d = Ok true -> is_business_day' d = Ok true).
Proof.
  assert (E : is_valid_spot' d
              = (b <- is_business_day' d ;;
                 Ok (b && negb (country_holidays "US" d)))) by reflexivity.
  rewrite E. destruct (is_business_day' d) as [ [ | ] | e | ]; simpl;
    destruct (country_holidays "US" d); simpl;
    repeat split; try congruence; intros H; try easy;
    destruct H; congruence.
Qed.

(** What [spot_from_horizon] returns on a business day. *)
Lemma spot_from_horizon_returns (h r : datetime) :
  valid_date h -> valid_date r -> is_business_day' h = Ok true ->
  (returns (fun n => spot_from_horizon country_holidays self n h) r
   <-> if PyStr.mem (ccy self) fast_settling
       then nearest_after is_valid_spot' h r
       else exists b, nearest_after is_business_day' h b
                      /\ nearest_after is_valid_spot' b r).
Proof.
  intros Vh Vr B. unfold spot_from_horizon. rewrite B. cbn [bind assert].
  destruct (PyStr.mem (ccy self) fast_settling).
  - symmetry. exact (walk_up_returns is_valid_spot' h r Vh Vr).
  - split.
    + intros [n0 H]. specialize (H n0 (Nat.le_refl _)).
      apply bind_ok in H as (b & Hb & Hr).
      exists b. split.
      * now apply (walk_up_sound is_business_day' n0).
      * now apply (walk_up_sound is_valid_spot' n0).
    + intros (b & Nb & Nr).
      assert (Vb : valid_date b)
        by (destruct Nb as (? & _), Nr as (? & _);
            unfold valid_date in *; lia).
      apply (returns_bind
               (fun n => next_business_day country_holidays self n h)
               (fun x n => next_valid_spot country_holidays self n x) b r).
      * now apply (walk_up_returns is_business_day' h b Vh Vb).
      * now apply (walk_up_returns is_valid_spot' b r Vb Vr).
Qed.

(** C2.  [spot_from_horizon] refuses a horizon date that is not a business
    day.  On a business day it returns, for a fast-settling pair, the
    nearest valid spot strictly after the horizon date, and for any other
    pair the nearest valid spot strictly after the nearest business day
    strictly after the horizon date. *)
Theorem spot_from_horizon_spec (h r : datetime)
  (Vh : valid_date h) (Vr : valid_date r) :
  (is_business_day' h = Ok false ->
   forall fuel, spot_from_horizon country_holidays self fuel h
                = Raise (AssertionError "Horizon date is not a business day!"))
  /\ (is_business_day' h = Ok true ->
      In (ccy self) fast_settling ->
      (returns (fun n => spot_from_horizon country_holidays self n h) r
       <-> nearest_after is_valid_spot' h r))
  /\ (is_business_day' h = Ok true ->
      ~ In (ccy self) fast_settling ->
      (returns (fun n => spot_from_horizon country_holidays self n h) r
       <-> exists b, nearest_after is_business_day' h b
                     /\ nearest_after is_valid_spot' b r)).
Proof.
  split; [ | split ].
  - intros B fuel. unfold spot_from_horizon. now rewrite B.
  - intros B F. rewrite (spot_from_horizon_returns h r Vh Vr B).
    apply mem_In in F. now rewrite F.
  - intros B F. rewrite (spot_from_horizon_returns h r Vh Vr B).
    destruct (PyStr.mem (ccy self) fast_settling) eqn:M;
      [ now apply mem_In in M | reflexivity ].
Qed.

(** C3, as the code has it.  [horizon_from_spot] refuses a date that is not
    a valid spot.  It undoes [spot_from_horizon] on a business day [h]
    whenever the three predicates agree on every date from [h] up to the
    spot date: the way back walks over valid expiry dates, the way out
    over business days and valid spots. *)
Theorem horizon_from_spot_round_trip (h s : datetime)
  (Vh : valid_date h) (Vs : valid_date s) :
  (is_valid_spot' s = Ok false ->
   forall fuel, horizon_from_spot country_holidays self fuel s
                = Raise (AssertionError "Spot date is not valid!"))
  /\ (is_business_day' h = Ok true ->
      returns (fun n => spot_from_horizon country_holidays self n h) s ->
      (forall x, h <= x < s ->
         is_valid_spot' x = is_business_day' x
         /\ is_valid_expiry' x = is_business_day' x) ->
      returns (fun n => horizon_from_spot country_holidays self n s) h).
Proof.
  split.
  - intros B fuel. unfold horizon_from_spot. now rewrite B.
  - intros B R Agree.
    pose proof (proj1 (spot_from_horizon_returns h s Vh Vs B) R) as R'.
    assert (Eh : is_valid_expiry' h = Ok true).
    { destruct R as [n0 R]. specialize (R n0 (Nat.le_refl _)).
      unfold spot_from_horizon in R. rewrite B in R. cbn [bind assert] in R.
      assert (h < s).
      { destruct (PyStr.mem _ _).
        - now apply (walk_up_sound is_valid_spot' n0) in R as ((? & _) & _).
        - apply bind_ok in R as (b & Hb & Hr).
          apply (walk_up_sound is_business_day' n0) in Hb as ((? & _) & _).
          apply (walk_up_sound is_valid_spot' n0) in Hr as ((? & _) & _).
          lia. }
      destruct (Agree h) as (_ & E); [ lia | ]. now rewrite E. }
    unfold horizon_from_spot.
    destruct (PyStr.mem (ccy self) fast_settling).
    + destruct R' as (L & T & N). rewrite T. cbn [bind assert].
      apply (walk_down_returns is_valid_expiry' s h Vs Vh).
      split; [ exact L | split; [ exact Eh | ] ].
      intros x Hx. destruct (Agree x) as (E1 & E2); [ lia | ].
      rewrite E2, <- E1. now apply N.
    + destruct R' as (b & (Lb & Tb & Nb) & (L & T & N)).
      rewrite T. cbn [bind assert].
      assert (Vb : valid_date b) by (unfold valid_date in *; lia).
      apply (returns_bind
               (fun n => prev_business_day country_holidays self n s)
               (fun x n => prev_valid_expiry country_holidays self n x) b h).
      * apply (walk_down_returns is_business_day' s b Vs Vb).
        split; [ exact L | split; [ exact Tb | ] ].
        intros x Hx. destruct (Agree x) as (E1 & _); [ lia | ].
        rewrite <- E1. now apply N.
      * apply (walk_down_returns is_valid_expiry' b h Vb Vh).
        split; [ exact Lb | split; [ exact Eh | ] ].
        intros x Hx. destruct (Agree x) as (_ & E2); [ lia | ].
        rewrite E2. now apply Nb.
Qed.

End EngineFacts.

(** ** The pairs of supported currencies *)

(** Case analysis on a supported currency code. *)
Ltac each_ccy :=
  repeat match goal with
         | H : In _ supported_ccy |- _ => unfold supported_ccy in H; simpl in H
         | H : _ \/ _ |- _ => destruct H as [H | H]
         | H : False |- _ => destruct H
         | H : _ = ?c |- _ => is_var c; subst c
         end.

(** [init] accepts exactly the pairs of two supported currencies. *)
Lemma init_pair (s : string) (self : TenorDates) :
  init s = Ok self
  <-> exists c1 c2, In c1 supported_ccy /\ In c2 supported_ccy
                    /\ s = (c1 ++ c2)%string /\ self = pair c1 c2.
Proof.
  split.
  - unfold init, assert.
    destruct (_ && _ && _) eqn:E; simpl; intros H; inversion H; subst self.
    apply andb_true_iff in E as (E & M2).
    apply andb_true_iff in E as (L & M1).
    apply Nat.eqb_eq in L. apply mem_In in M1, M2.
    do 7 (destruct s as [ | ? s]; try discriminate).
    exists (PyStr.slice (String a (String a0 (String a1
              (String a2 (String a3 (String a4 EmptyString)))))) 0 3).
    exists (PyStr.slice (String a (String a0 (String a1
              (String a2 (String a3 (String a4 EmptyString)))))) 3 6).
    repeat split; assumption.
  - intros (c1 & c2 & H1 & H2 & -> & ->). each_ccy; reflexivity.
Qed.

Section PairFacts.

Variable country_holidays : string -> datetime -> bool.

(** C4, the cases the code handles.  On a pair with exactly one USD leg the
    business-day test consults the calendar of the other leg only; on a
    pair without a USD leg it consults both calendars; weekends are never
    business days. *)
Lemma is_business_day_pair (c1 c2 : string) (d : datetime) :
  In c1 supported_ccy -> In c2 supported_ccy ->
  is_business_day country_holidays (pair c1 c2) d
  = if String.eqb c1 "USD" then
      if String.eqb c2 "USD" then Raise (KeyError "")
      else Ok (is_weekday d && negb (country_holidays (code_of c2) d))
    else if String.eqb c2 "USD" then
      Ok (is_weekday d && negb (country_holidays (code_of c1) d))
    else
      Ok (is_weekday d
          && negb (country_holidays (code_of c1) d)
          && negb (country_holidays (code_of c2) d)).
Proof. intros H1 H2. each_ccy; reflexivity. Qed.

Lemma is_business_day_weekend (c1 c2 : string) (d : datetime) :
  In c1 supported_ccy -> In c2 supported_ccy ->
  is_weekday d = false ->
  is_business_day country_holidays (pair c1 c2) d <> Ok true.
Proof.
  intros H1 H2 W. rewrite is_business_day_pair by assumption. rewrite W.
  destruct (String.eqb c1 "USD"), (String.eqb c2 "USD"); simpl; congruence.
Qed.

(** C4 at the pair USDUSD, which [init] accepts: removing "USD" from the
    pair leaves the empty string, and the lookup of its country raises
    [KeyError]; no calendar is consulted. *)
Theorem is_business_day_USDUSD (d : datetime) :
  init "USDUSD" = Ok USDUSD
  /\ is_business_day country_holidays USDUSD d = Raise (KeyError "").
Proof. split; reflexivity. Qed.

(** C6.  On every pair of supported currencies a date that pandas can
    hold is a valid expiry exactly when it is a weekday, is not the first
    of January and is not a holiday in at least one of the two countries;
    it never is one on the first of January. *)
Theorem valid_expiry_iff (c1 c2 : string) (d : datetime)
  (H1 : In c1 supported_ccy) (H2 : In c2 supported_ccy)
  (Hd : in_pandas_range d) :
  (exists b, is_valid_expiry country_holidays (pair c1 c2) d = Ok b)
  /\ (is_valid_expiry country_holidays (pair c1 c2) d = Ok true
      <-> is_weekday d = true
          /\ ~ (day d = 1 /\ month d = 1)
          /\ (country_holidays (code_of c1) d = false
              \/ country_holidays (code_of c2) d = false))
  /\ (day d = 1 -> month d = 1 ->
      is_valid_expiry country_holidays (pair c1 c2) d = Ok false)
  /\ (forall y, MINYEAR <= y <= MAXYEAR -> in_pandas_range (mkdate y 1 1) ->
      is_valid_expiry country_holidays (pair c1 c2) (mkdate y 1 1) = Ok false).
Proof.
  assert (E : forall d, is_valid_expiry country_holidays (pair c1 c2) d
              = Ok (is_weekday d
                    && negb ((day d =? 1) && (month d =? 1))
                    && (negb (country_holidays (code_of c1) d)
                        || negb (country_holidays (code_of c2) d))))
    by (intros d'; each_ccy; reflexivity).
  rewrite !E. split; [ eauto | split; [ | split ] ].
  - split.
    + intros H. inversion H as [H'].
      apply andb_true_iff in H' as (H' & Hh).
      apply andb_true_iff in H' as (Hw & Hj).
      rewrite Hw, Hj, Hh. simpl.
      apply negb_true_iff, andb_false_iff in Hj.
      apply orb_true_iff in Hh. rewrite !negb_true_iff in Hh.
      repeat split; trivial.
      intros (Jd & Jm). rewrite Jd, Jm in Hj. destruct Hj; discriminate.
    + intros (Hw & Hj & Hh). f_equal.
      rewrite Hw. simpl. apply andb_true_iff. split.
      * apply negb_true_iff, andb_false_iff.
        destruct (Z.eqb_spec (day d) 1), (Z.eqb_spec (month d) 1); tauto.
      * apply orb_true_iff. rewrite !negb_true_iff. exact Hh.
  - intros Jd Jm. rewrite Jd, Jm. simpl. now rewrite andb_false_r.
  - intros y Hy _. rewrite E.
    destruct (new_year_fields y Hy) as (Jd & Jm).
    rewrite Jd, Jm. simpl. now rewrite andb_false_r.
Qed.

End PairFacts.

(** ** Tenors *)

Section TenorFacts.

Variable country_holidays : string -> datetime -> bool.
Variable self : TenorDates.

Abbreviation is_business_day' := (is_business_day country_holidays self).
Abbreviation is_valid_expiry' := (is_valid_expiry country_holidays self).
Abbreviation expiry_from_tenor' := (expiry_from_tenor country_holidays self).

(** What the roll-back loop guarantees when it stops: the month numbers of
    the delivery date and of the spot date differ by at most [n_months].
    The years are not compared. *)
Lemma roll_back_gap (fuel iters : nat) (spot_date : datetime) (n_months : Z) :
  forall delivery_date r,
    roll_back country_holidays self fuel iters spot_date n_months delivery_date
    = Ok r ->
    month r - month spot_date <= n_months.
Proof.
  induction iters as [ | iters IH]; intros dd r H; simpl in H;
    destruct (Z.ltb_spec n_months (month dd - month spot_date)) as [L | L];
    try discriminate; try (inversion H; subst; lia).
  apply bind_ok in H as (dd' & _ & H). now apply IH in H.
Qed.

Lemma delivery_from_spot_gap (fuel : nat) (spot_date : datetime)
  (n_months : Z) (r : datetime) :
  delivery_from_spot country_holidays self fuel spot_date n_months = Ok r ->
  month r - month spot_date <= n_months
  /\ (year r = year spot_date -> month_distance spot_date r <= n_months).
Proof.
  unfold delivery_from_spot. intros H.
  apply bind_ok in H as (d1 & _ & H).
  apply bind_ok in H as (b & _ & H).
  apply bind_ok in H as (d2 & _ & H).
  apply roll_back_gap in H. split; trivial.
  intros Y. unfold month_distance. rewrite Y. lia.
Qed.

Lemma last_char_not_ON (tenor : string) (c : ascii) :
  PyStr.last_char tenor = Ok c -> c <> "N"%char ->
  String.eqb tenor "ON" = false.
Proof.
  intros H Hc. apply String.eqb_neq. intros ->. simpl in H. congruence.
Qed.

(** The branches in days and in weeks: the date [days] later if it is a
    valid expiry, else the nearest valid expiry after it. *)
Lemma expiry_from_days_spec (h days : Z) :
  valid_date (h + days) ->
  (is_valid_expiry' (h + days) = Ok true ->
   forall fuel, expiry_from_days country_holidays self fuel h days
                = Ok (h + days))
  /\ (is_valid_expiry' (h + days) = Ok false ->
      forall r, valid_date r ->
        (nearest_after is_valid_expiry' (h + days) r
         <-> returns (fun k => expiry_from_days country_holidays self k h days)
               r)).
Proof.
  intros V. unfold expiry_from_days. rewrite (add_days_ok _ _ V).
  cbn [bind]. split; intros E; rewrite E; cbn [bind].
  - reflexivity.
  - intros r Vr. exact (walk_up_returns is_valid_expiry' (h + days) r V Vr).
Qed.

(** C10.  A tenor in months or years on a horizon date that is not a
    business day fails: once the number is read, the assertion of
    [spot_from_horizon] is raised.  The tenors ON, in days and in weeks
    never test the horizon date: they return the valid expiry found from
    it, whatever the horizon date is. *)
Theorem expiry_from_tenor_precondition (h : datetime) (tenor : string)
  (Vh : valid_date h) :
  ((PyStr.last_char tenor = Ok "M"%char \/ PyStr.last_char tenor = Ok "Y"%char) ->
   is_business_day' h = Ok false ->
   forall fuel,
     expiry_from_tenor' fuel h tenor
     = (n <- PyStr.int (PyStr.but_last tenor) ;;
        Raise (AssertionError "Horizon date is not a business day!"))
     /\ exists e, expiry_from_tenor' fuel h tenor = Raise e)
  /\ (forall r, valid_date r ->
        (nearest_after is_valid_expiry' h r
         <-> returns (fun k => expiry_from_tenor' k h "ON") r))
  /\ (forall n days,
        (PyStr.last_char tenor = Ok "D"%char /\ days = n
         \/ PyStr.last_char tenor = Ok "W"%char /\ days = n * 7) ->
        PyStr.int (PyStr.but_last tenor) = Ok n ->
        valid_date (h + days) ->
        (is_valid_expiry' (h + days) = Ok true ->
         forall fuel, expiry_from_tenor' fuel h tenor = Ok (h + days))
        /\ (is_valid_expiry' (h + days) = Ok false ->
            forall r, valid_date r ->
              (nearest_after is_valid_expiry' (h + days) r
               <-> returns (fun k => expiry_from_tenor' k h tenor) r))).
Proof.
  split; [ | split ].
  - intros L B fuel.
    assert (I : PyStr.int (PyStr.but_last tenor) <> OutOfFuel).
    { unfold PyStr.int. destruct (PyStr.strip _) as [ | ? ?]; cbv zeta;
        repeat match goal with
               | |- context [if ?b then _ else _] => destruct b
               end;
        destruct (PyStr.literal_body _); discriminate. }
    unfold expiry_from_tenor.
    destruct L as [L | L];
      rewrite (last_char_not_ON _ _ L) by discriminate;
      rewrite L; cbn [bind Ascii.eqb Bool.eqb orb];
      destruct (PyStr.int (PyStr.but_last tenor)) as [n | e | ];
      cbn [bind]; try (now elim I);
      unfold expiry_from_months, spot_from_horizon;
      try rewrite B; cbn [bind assert]; eauto.
  - intros r Vr. unfold expiry_from_tenor. cbn [String.eqb Ascii.eqb Bool.eqb].
    exact (walk_up_returns is_valid_expiry' h r Vh Vr).
  - intros n days L I V.
    assert (E : forall fuel, expiry_from_tenor' fuel h tenor
                = expiry_from_days country_holidays self fuel h days).
    { intros fuel. unfold expiry_from_tenor.
      destruct L as [(L & ->) | (L & ->)];
        rewrite (last_char_not_ON _ _ L) by discriminate;
        rewrite L; cbn [bind Ascii.eqb Bool.eqb orb];
        rewrite I; reflexivity. }
    destruct (expiry_from_days_spec h days V) as (A & B).
    split.
    + intros T fuel. rewrite E. now apply A.
    + intros F r Vr. rewrite (B F r Vr).
      split; intros [k H]; exists k; intros m Hm;
        [ rewrite E | rewrite <- E ]; now apply H.
Qed.

(** C9, as the code has it.  A tenor other than "ON" fails when it is empty
    ([IndexError]), when its last character is none of D, W, M, Y
    ([InputError] with a message that is the same for every tenor), and
    when what precedes the last character is not accepted by [int] (the
    [ValueError] of [int], naming that text).  The number itself is not
    tested: zero and negative numbers are accepted. *)
Theorem expiry_from_tenor_malformed (fuel : nat) (h : datetime)
  (tenor : string) (HON : tenor <> "ON") :
  (tenor = "" -> expiry_from_tenor' fuel h tenor = Raise IndexError)
  /\ (forall c, PyStr.last_char tenor = Ok c ->
        ~ In c ["D"; "W"; "M"; "Y"]%char ->
        expiry_from_tenor' fuel h tenor
        = Raise (InputError invalid_tenor_message))
  /\ (forall c e, PyStr.last_char tenor = Ok c ->
        In c ["D"; "W"; "M"; "Y"]%char ->
        PyStr.int (PyStr.but_last tenor) = Raise e ->
        e = ValueError (PyStr.but_last tenor)
        /\ expiry_from_tenor' fuel h tenor = Raise e).
Proof.
  apply String.eqb_neq in HON.
  unfold expiry_from_tenor. rewrite HON.
  split; [ | split ].
  - intros ->. reflexivity.
  - intros c L N. rewrite L. cbn [bind].
    destruct (Ascii.eqb_spec c "D") as [-> | ND]; [ elim N; simpl; tauto | ].
    destruct (Ascii.eqb_spec c "W") as [-> | NW]; [ elim N; simpl; tauto | ].
    destruct (Ascii.eqb_spec c "M") as [-> | NM]; [ elim N; simpl; tauto | ].
    destruct (Ascii.eqb_spec c "Y") as [-> | NY]; [ elim N; simpl; tauto | ].
    reflexivity.
  - intros c e L I E. split.
    + unfold PyStr.int in E.
      destruct (PyStr.strip _) as [ | ? ?]; cbv zeta in E;
        repeat match type of E with
               | context [if ?b then _ else _] => destruct b
               end;
        destruct (PyStr.literal_body _); congruence.
    + rewrite L. cbn [bind].
      simpl in I. destruct I as [<- | [<- | [<- | [<- | []]]]];
        cbn [Ascii.eqb Bool.eqb orb]; rewrite E; reflexivity.
Qed.

End TenorFacts.

(** ** Concrete dates *)

Ltac date_ok := apply in_range_valid; vm_compute; reflexivity.

Ltac pandas_ok := vm_compute; split; discriminate.

(** Replace the concrete dates by their ordinals. *)
Ltac dates :=
  repeat match goal with
         | |- context [mkdate ?y ?m ?d] =>
             let v := eval vm_compute in (mkdate y m d) in
             change (mkdate y m d) with v
         | H : context [mkdate ?y ?m ?d] |- _ =>
             let v := eval vm_compute in (mkdate y m d) in
             change (mkdate y m d) with v in H
         end.

(** The scenarios of the specification: from Wednesday 2014-06-11, EURUSD
    settles on Friday the 13th and USDCAD one business day earlier. *)
Example spot_EURUSD_2014_06_11 :
  spot_from_horizon fixed_holidays EURUSD 5 (mkdate 2014 6 11)
  = Ok (mkdate 2014 6 13).
Proof. vm_compute. reflexivity. Qed.

Example spot_USDCAD_2014_06_11 :
  spot_from_horizon fixed_holidays USDCAD 5 (mkdate 2014 6 11)
  = Ok (mkdate 2014 6 12).
Proof. vm_compute. reflexivity. Qed.

(** The US calendar closes settlement on a pair without a USD leg: the
    4th of July 2014 is a business day of EURGBP but not a valid spot. *)
Example spot_EURGBP_2014_07_04 :
  is_business_day fixed_holidays EURGBP (mkdate 2014 7 4) = Ok true
  /\ is_valid_spot fixed_holidays EURGBP (mkdate 2014 7 4) = Ok false.
Proof. split; vm_compute; reflexivity. Qed.

(** On a Saturday horizon the overnight, day and week tenors return a
    date, the month tenor raises the assertion. *)
Example expiry_on_saturday :
  is_business_day fixed_holidays EURUSD (mkdate 2014 6 14) = Ok false
  /\ expiry_from_tenor fixed_holidays EURUSD 5 (mkdate 2014 6 14) "ON"
     = Ok (mkdate 2014 6 16)
  /\ expiry_from_tenor fixed_holidays EURUSD 5 (mkdate 2014 6 14) "3D"
     = Ok (mkdate 2014 6 17)
  /\ expiry_from_tenor fixed_holidays EURUSD 5 (mkdate 2014 6 14) "1W"
     = Ok (mkdate 2014 6 23)
  /\ expiry_from_tenor fixed_holidays EURUSD 5 (mkdate 2014 6 14) "1M"
     = Raise (AssertionError "Horizon date is not a business day!").
Proof. repeat split; vm_compute; reflexivity. Qed.

(** C1 at a year end.  EURUSD, horizon Monday 2014-12-29, tenor 1M: the
    spot date is 2014-12-31; one month later is Saturday 2015-01-31, which
    snaps forward to Monday 2015-02-02.  The loop compares the month
    numbers, 2 - 12 = -10, does not run, and the delivery date stays two
    calendar months after the spot date. *)
Theorem delivery_year_wrap :
  spot_from_horizon fixed_holidays EURUSD 5 (mkdate 2014 12 29)
  = Ok (mkdate 2014 12 31)
  /\ delivery_from_spot fixed_holidays EURUSD 5 (mkdate 2014 12 31) 1
     = Ok (mkdate 2015 2 2)
  /\ month (mkdate 2015 2 2) - month (mkdate 2014 12 31) = -10
  /\ month_distance (mkdate 2014 12 31) (mkdate 2015 2 2) = 2
  /\ expiry_from_tenor fixed_holidays EURUSD 5 (mkdate 2014 12 29) "1M"
     = Ok (mkdate 2015 1 29).
Proof. repeat split; vm_compute; reflexivity. Qed.

(** Within a year the loop does what its comment says.  From the spot
    date Friday 2014-05-30 one month later is Monday 2014-06-30, a valid
    spot, and the loop has nothing to do.  From the spot date Friday
    2015-01-30 one month later is Saturday 2015-02-28, which snaps forward
    to Monday 2015-03-02; the loop brings the delivery date back to Friday
    2015-02-27. *)
Example delivery_within_year :
  delivery_from_spot fixed_holidays EURUSD 5 (mkdate 2014 5 30) 1
  = Ok (mkdate 2014 6 30)
  /\ add_months (mkdate 2015 1 30) 1 = Ok (mkdate 2015 2 28)
  /\ next_valid_spot fixed_holidays EURUSD 5 (mkdate 2015 2 28)
     = Ok (mkdate 2015 3 2)
  /\ delivery_from_spot fixed_holidays EURUSD 5 (mkdate 2015 1 30) 1
     = Ok (mkdate 2015 2 27).
Proof. repeat split; vm_compute; reflexivity. Qed.

(** C3 fails around a US holiday.  EURUSD, horizon Wednesday 2014-07-02:
    the next business day is Thursday the 3rd, the next valid spot after
    it is Monday the 7th (Friday the 4th is a US holiday).  On the way
    back the previous business day before the 7th is Friday the 4th, a
    business day of EURUSD, and the previous valid expiry before it is
    Thursday the 3rd, not the horizon date. *)
Lemma round_trip_differs :
  is_business_day fixed_holidays EURUSD (mkdate 2014 7 2) = Ok true
  /\ spot_from_horizon fixed_holidays EURUSD 5 (mkdate 2014 7 2)
     = Ok (mkdate 2014 7 7)
  /\ horizon_from_spot fixed_holidays EURUSD 5 (mkdate 2014 7 7)
     = Ok (mkdate 2014 7 3)
  /\ mkdate 2014 7 3 <> mkdate 2014 7 2.
Proof. repeat split; vm_compute; (reflexivity || discriminate). Qed.

(** C9 fails on a number that is not positive: the tenors "0D" and "-1D"
    return dates, the horizon date itself and the day before it. *)
Lemma nonpositive_tenor_returns_date :
  expiry_from_tenor fixed_holidays EURUSD 5 (mkdate 2014 6 11) "0D"
  = Ok (mkdate 2014 6 11)
  /\ expiry_from_tenor fixed_holidays EURUSD 5 (mkdate 2014 6 11) "-1D"
     = Ok (mkdate 2014 6 10).
Proof. split; vm_compute; reflexivity. Qed.

(** ** The theorems at concrete inputs *)

(** C7 at EURUSD from Friday 2014-06-13: the next business day is Monday
    the 16th. *)
Lemma walks_return_nearest_witness :
  (nearest_after (is_business_day fixed_holidays EURUSD)
     (mkdate 2014 6 13) (mkdate 2014 6 16)
   <-> returns (fun n => next_business_day fixed_holidays EURUSD n
                           (mkdate 2014 6 13)) (mkdate 2014 6 16))
  /\ next_business_day fixed_holidays EURUSD 5 (mkdate 2014 6 13)
     <> Ok (mkdate 2014 6 13).
Proof.
  destruct (walks_return_nearest fixed_holidays EURUSD
              (mkdate 2014 6 13) (mkdate 2014 6 16) 5)
    as (A & _ & _ & _ & _ & _ & B & _); [ date_ok | date_ok | ].
  exact (conj A B).
Defined.


(** C2 at EURUSD, horizon 2014-06-11 and spot date 2014-06-13. *)
Lemma spot_from_horizon_spec_witness :
  returns (fun n => spot_from_horizon fixed_holidays EURUSD n
                      (mkdate 2014 6 11)) (mkdate 2014 6 13)
  <-> exists b,
        nearest_after (is_business_day fixed_holidays EURUSD)
          (mkdate 2014 6 11) b
        /\ nearest_after (is_valid_spot fixed_holidays EURUSD)
             b (mkdate 2014 6 13).
Proof.
  destruct (spot_from_horizon_spec fixed_holidays EURUSD
              (mkdate 2014 6 11) (mkdate 2014 6 13))
    as (_ & _ & A); [ date_ok | date_ok | ].
  apply A.
  - vm_compute. reflexivity.
  - simpl. intros [H | [H | [H | [H | []]]]]; discriminate.
Defined.

(** C3 at EURUSD: from the spot date 2014-06-13 back to the horizon date
    2014-06-11; no holiday is in the way. *)
Lemma horizon_from_spot_round_trip_witness :
  returns (fun n => horizon_from_spot fixed_holidays EURUSD n
                      (mkdate 2014 6 13)) (mkdate 2014 6 11).
Proof.
  destruct (horizon_from_spot_round_trip fixed_holidays EURUSD
              (mkdate 2014 6 11) (mkdate 2014 6 13))
    as (_ & A); [ date_ok | date_ok | ].
  apply A.
  - vm_compute. reflexivity.
  - apply spot_from_horizon_returns; [ date_ok | date_ok | reflexivity | ].
    exists (mkdate 2014 6 12).
    split; (split; [ reflexivity | split; [ reflexivity | ] ]);
      intros x Hx; exfalso; dates; lia.
  - intros x Hx. dates.
    assert (C : x = 735395 \/ x = 735396) by lia.
    destruct C as [-> | ->]; split; reflexivity.
Defined.

(** C6 at EURUSD: the first of January 2015, a Thursday, is no valid
    expiry. *)
Lemma valid_expiry_iff_witness :
  is_weekday (mkdate 2015 1 1) = true
  /\ is_valid_expiry fixed_holidays (pair "EUR" "USD") (mkdate 2015 1 1)
     = Ok false.
Proof.
  destruct (valid_expiry_iff fixed_holidays "EUR" "USD" (mkdate 2015 1 1))
    as (_ & _ & _ & A); [ simpl; tauto | simpl; tauto | pandas_ok | ].
  split; [ reflexivity | ].
  apply A; [ unfold MINYEAR, MAXYEAR; lia | pandas_ok ].
Defined.

(** C10 at EURUSD on Saturday 2014-06-14 with the tenor 1M. *)
Lemma expiry_from_tenor_precondition_witness :
  expiry_from_tenor fixed_holidays EURUSD 5 (mkdate 2014 6 14) "1M"
  = Raise (AssertionError "Horizon date is not a business day!").
Proof.
  destruct (expiry_from_tenor_precondition fixed_holidays EURUSD
              (mkdate 2014 6 14) "1M") as (A & _); [ date_ok | ].
  destruct (A (or_introl eq_refl) eq_refl 5%nat) as (E & _).
  exact E.
Defined.

(** C9 at the tenor 5X. *)
Lemma expiry_from_tenor_malformed_witness :
  expiry_from_tenor fixed_holidays EURUSD 5 (mkdate 2014 6 11) "5X"
  = Raise (InputError invalid_tenor_message).
Proof.
  destruct (expiry_from_tenor_malformed fixed_holidays EURUSD 5
              (mkdate 2014 6 11) "5X") as (_ & A & _); [ discriminate | ].
  apply (A "X"%char); [ reflexivity | ].
  simpl. intros [H | [H | [H | [H | []]]]]; discriminate.
Defined.

(** * Further properties of the engine *)

(** ** The constructor and the predicates *)

Lemma init_answers (s : string) : init s <> OutOfFuel.
Proof. unfold init, assert. destruct (_ && _ && _); discriminate. Qed.

(** The message as Python prints it. *)
Example init_message_text :
  init_message
  = "ccy input must be in the form of 'CCY1CCY2'! Supported currencies: ['USD', 'GBP', 'EUR', 'JPY', 'CHF', 'AUD', 'CAD', 'NZD', 'SEK', 'NOK']".
Proof. reflexivity. Qed.

(** X1.  The constructor accepts a string exactly when it is the
    concatenation of two supported currency codes, and then stores it
    unchanged; every other string raises the assertion. *)
Theorem constructor_accepts_supported_pairs (s : string) :
  (forall self, init s = Ok self ->
     ccy self = s /\ String.length s = 6%nat
     /\ In (PyStr.slice s 0 3) supported_ccy
     /\ In (PyStr.slice s 3 6) supported_ccy)
  /\ ((exists c1 c2, In c1 supported_ccy /\ In c2 supported_ccy
                     /\ s = (c1 ++ c2)%string)
      <-> init s = Ok {| ccy := s |})
  /\ (~ (exists c1 c2, In c1 supported_ccy /\ In c2 supported_ccy
                       /\ s = (c1 ++ c2)%string)
      -> init s
         = Raise (AssertionError init_message)).
Proof.
  split; [ | split ].
  - intros self H. unfold init, assert in H.
    destruct (_ && _ && _) eqn:E; simpl in H; inversion H; subst self.
    apply andb_true_iff in E as (E & M2).
    apply andb_true_iff in E as (L & M1).
    apply Nat.eqb_eq in L. apply mem_In in M1, M2. auto.
  - split.
    + intros (c1 & c2 & H1 & H2 & ->).
      now apply (init_pair _ _), (ex_intro _ c1), (ex_intro _ c2).
    + intros H. apply init_pair in H as (c1 & c2 & H1 & H2 & E & _). eauto.
  - intros N. destruct (init s) as [self | e | ] eqn:E.
    + elim N. apply init_pair in E as (c1 & c2 & H1 & H2 & E & _). eauto.
    + unfold init, assert in E.
      destruct (_ && _ && _); simpl in E; congruence.
    + now apply init_answers in E.
Qed.

(** X2.  Of the four pairs that settle one day after the horizon the
    constructor accepts USDCAD only: TRY, PHP and RUB are not supported
    currencies.  Every other object settles two days after. *)
Theorem fast_settling_is_USDCAD (s : string) (self : TenorDates)
  (H : init s = Ok self) :
  (In (ccy self) fast_settling <-> s = "USDCAD")
  /\ (forall x, In x fast_settling -> x <> "USDCAD" ->
        exists e, init x = Raise e).
Proof.
  split.
  - rewrite <- mem_In.
    apply init_pair in H as (c1 & c2 & H1 & H2 & -> & ->).
    each_ccy; split; intros E; solve [ reflexivity | discriminate E ].
  - intros x Hx Hn. simpl in Hx.
    destruct Hx as [<- | [<- | [<- | [<- | []]]]];
      solve [ now elim Hn | eexists; reflexivity ].
Qed.

Section MorePairFacts.

Variable country_holidays : string -> datetime -> bool.

Lemma is_valid_expiry_pair (c1 c2 : string) (d : datetime) :
  In c1 supported_ccy -> In c2 supported_ccy ->
  is_valid_expiry country_holidays (pair c1 c2) d
  = Ok (is_weekday d
        && negb ((day d =? 1) && (month d =? 1))
        && (negb (country_holidays (code_of c1) d)
            || negb (country_holidays (code_of c2) d))).
Proof. intros H1 H2. each_ccy; reflexivity. Qed.

Lemma is_valid_spot_unfold (self : TenorDates) (d : datetime) :
  is_valid_spot country_holidays self d
  = (b <- is_business_day country_holidays self d ;;
     Ok (b && negb (country_holidays "US" d))).
Proof. reflexivity. Qed.

(** X3.  The order of the two legs does not matter to any of the three
    predicates. *)
Theorem predicates_ignore_leg_order (c1 c2 : string) (d : datetime)
  (H1 : In c1 supported_ccy) (H2 : In c2 supported_ccy) :
  is_business_day country_holidays (pair c1 c2) d
  = is_business_day country_holidays (pair c2 c1) d
  /\ is_valid_spot country_holidays (pair c1 c2) d
     = is_valid_spot country_holidays (pair c2 c1) d
  /\ is_valid_expiry country_holidays (pair c1 c2) d
     = is_valid_expiry country_holidays (pair c2 c1) d.
Proof.
  assert (B : is_business_day country_holidays (pair c1 c2) d
              = is_business_day country_holidays (pair c2 c1) d).
  { rewrite !is_business_day_pair by assumption.
    destruct (String.eqb c1 "USD"), (String.eqb c2 "USD"); trivial.
    f_equal. destruct (is_weekday d); simpl; trivial. apply andb_comm. }
  split; [ exact B | split ].
  - rewrite !is_valid_spot_unfold. now rewrite B.
  - rewrite !is_valid_expiry_pair by assumption. f_equal. f_equal.
    apply orb_comm.
Qed.

(** X4.  On every pair of supported currencies other than USDUSD the three
    predicates answer with a boolean on every date that pandas can hold;
    on USDUSD [is_valid_spot] raises the [KeyError] of
    [is_business_day]. *)
Theorem predicates_raise_only_on_USDUSD (c1 c2 : string) (d : datetime)
  (H1 : In c1 supported_ccy) (H2 : In c2 supported_ccy)
  (Hd : in_pandas_range d) :
  (~ (c1 = "USD" /\ c2 = "USD") ->
   exists b s e,
     is_business_day country_holidays (pair c1 c2) d = Ok b
     /\ is_valid_spot country_holidays (pair c1 c2) d = Ok s
     /\ is_valid_expiry country_holidays (pair c1 c2) d = Ok e)
  /\ (c1 = "USD" -> c2 = "USD" ->
      is_valid_spot country_holidays (pair c1 c2) d = Raise (KeyError "")
      /\ exists e,
           is_valid_expiry country_holidays (pair c1 c2) d = Ok e).
Proof.
  split.
  - intros N. rewrite is_valid_spot_unfold.
    rewrite is_business_day_pair, is_valid_expiry_pair by assumption.
    destruct (String.eqb_spec c1 "USD") as [E1 | E1],
             (String.eqb_spec c2 "USD") as [E2 | E2];
      try (elim N; now split); simpl;
      do 3 eexists; repeat split; reflexivity.
  - intros -> ->. split; [ reflexivity | ].
    rewrite is_valid_expiry_pair by assumption. eauto.
Qed.

(** X5.  The predicates are nested except on the first of January: a
    valid spot is a business day, and a business day that is not the
    first of January is a valid expiry. *)
Theorem business_day_is_valid_expiry (c1 c2 : string) (d : datetime)
  (H1 : In c1 supported_ccy) (H2 : In c2 supported_ccy)
  (NY : ~ (day d = 1 /\ month d = 1)) :
  (is_business_day country_holidays (pair c1 c2) d = Ok true ->
   is_valid_expiry country_holidays (pair c1 c2) d = Ok true)
  /\ (is_valid_spot country_holidays (pair c1 c2) d = Ok true ->
      is_valid_expiry country_holidays (pair c1 c2) d = Ok true).
Proof.
  assert (J : negb ((day d =? 1) && (month d =? 1)) = true).
  { apply negb_true_iff, andb_false_iff.
    destruct (Z.eqb_spec (day d) 1), (Z.eqb_spec (month d) 1); tauto. }
  assert (B : is_business_day country_holidays (pair c1 c2) d = Ok true ->
              is_valid_expiry country_holidays (pair c1 c2) d = Ok true).
  { rewrite is_business_day_pair, is_valid_expiry_pair by assumption.
    rewrite J.
    destruct (String.eqb c1 "USD"), (String.eqb c2 "USD");
      try discriminate; intros E; inversion E as [E']; f_equal;
      destruct (is_weekday d),
               (country_holidays (code_of c1) d),
               (country_holidays (code_of c2) d);
      simpl in *; congruence. }
  split; [ exact B | ].
  intros S. apply B. rewrite is_valid_spot_unfold in S.
  destruct (is_business_day country_holidays (pair c1 c2) d)
    as [ [ | ] | | ]; simpl in S; congruence.
Qed.

End MorePairFacts.

(** ** Walks, spot dates and horizon dates *)

Lemma nearest_after_back P d r :
  P d = Ok true -> nearest_after P d r -> nearest_before P r d.
Proof. intros Pd (L & _ & N). split; [ | split ]; trivial. Qed.

Lemma nearest_before_forth P d r :
  P d = Ok true -> nearest_before P d r -> nearest_after P r d.
Proof. intros Pd (L & _ & N). split; [ | split ]; trivial. Qed.

Lemma nearest_after_gap P d x r :
  nearest_after P d r -> d <= x < r -> nearest_after P x r.
Proof.
  intros (L & T & N) Hx. split; [ lia | split; trivial ].
  intros y Hy. apply N. lia.
Qed.

Lemma nearest_before_gap P d x r :
  nearest_before P d r -> r < x <= d -> nearest_before P x r.
Proof.
  intros (L & T & N) Hx. split; [ lia | split; trivial ].
  intros y Hy. apply N. lia.
Qed.

Lemma nearest_after_mono P d d' r r' :
  nearest_after P d r -> nearest_after P d' r' -> d <= d' -> r <= r'.
Proof.
  intros (L & T & N) (L' & T' & N') Hd.
  destruct (Z_lt_le_dec r' r) as [Hlt | ]; trivial.
  rewrite (N r') in T' by lia. discriminate.
Qed.

Lemma nearest_before_mono P d d' r r' :
  nearest_before P d r -> nearest_before P d' r' -> d <= d' -> r <= r'.
Proof.
  intros (L & T & N) (L' & T' & N') Hd.
  destruct (Z_lt_le_dec r' r) as [Hlt | ]; trivial.
  rewrite (N' r) in T by lia. discriminate.
Qed.

Section MoreEngineFacts.

Variable country_holidays : string -> datetime -> bool.
Variable self : TenorDates.

Abbreviation is_business_day' := (is_business_day country_holidays self).
Abbreviation is_valid_spot' := (is_valid_spot country_holidays self).
Abbreviation is_valid_expiry' := (is_valid_expiry country_holidays self).
Abbreviation next_business_day' := (next_business_day country_holidays self).
Abbreviation prev_business_day' := (prev_business_day country_holidays self).
Abbreviation next_valid_spot' := (next_valid_spot country_holidays self).
Abbreviation prev_valid_spot' := (prev_valid_spot country_holidays self).
Abbreviation next_valid_expiry' := (next_valid_expiry country_holidays self).
Abbreviation prev_valid_expiry' := (prev_valid_expiry country_holidays self).

Lemma is_valid_spot_true (d : datetime) :
  is_valid_spot' d = Ok true ->
  is_business_day' d = Ok true /\ country_holidays "US" d = false.
Proof.
  rewrite is_valid_spot_unfold.
  destruct (is_business_day' d) as [ [ | ] | | ]; simpl; try discriminate.
  destruct (country_holidays "US" d); simpl; try discriminate. auto.
Qed.

Lemma round_trip_up P d r :
  valid_date d -> valid_date r -> P d = Ok true ->
  returns (fun n => walk P 1 n d) r -> returns (fun n => walk P (-1) n r) d.
Proof.
  intros Vd Vr Pd R.
  apply walk_down_returns; trivial.
  apply nearest_after_back; trivial.
  now apply (walk_up_returns P d r Vd Vr).
Qed.

Lemma round_trip_down P d r :
  valid_date d -> valid_date r -> P d = Ok true ->
  returns (fun n => walk P (-1) n d) r -> returns (fun n => walk P 1 n r) d.
Proof.
  intros Vd Vr Pd R.
  apply walk_up_returns; trivial.
  apply nearest_before_forth; trivial.
  now apply (walk_down_returns P d r Vd Vr).
Qed.

(** X6.  From a date on which the predicate holds, a walk and the opposite
    walk come back to it: the previous business day of the next business
    day of a business day is that day, and likewise for the other
    direction and for valid spots and valid expiries. *)
Theorem walks_round_trip (d r : datetime)
  (Vd : valid_date d) (Vr : valid_date r) :
  (is_business_day' d = Ok true ->
   (returns (fun n => next_business_day' n d) r ->
    returns (fun n => prev_business_day' n r) d)
   /\ (returns (fun n => prev_business_day' n d) r ->
       returns (fun n => next_business_day' n r) d))
  /\ (is_valid_spot' d = Ok true ->
      (returns (fun n => next_valid_spot' n d) r ->
       returns (fun n => prev_valid_spot' n r) d)
      /\ (returns (fun n => prev_valid_spot' n d) r ->
          returns (fun n => next_valid_spot' n r) d))
  /\ (is_valid_expiry' d = Ok true ->
      (returns (fun n => next_valid_expiry' n d) r ->
       returns (fun n => prev_valid_expiry' n r) d)
      /\ (returns (fun n => prev_valid_expiry' n d) r ->
          returns (fun n => next_valid_expiry' n r) d)).
Proof.
  split; [ | split ]; intros Pd; split.
  - exact (round_trip_up is_business_day' d r Vd Vr Pd).
  - exact (round_trip_down is_business_day' d r Vd Vr Pd).
  - exact (round_trip_up is_valid_spot' d r Vd Vr Pd).
  - exact (round_trip_down is_valid_spot' d r Vd Vr Pd).
  - exact (round_trip_up is_valid_expiry' d r Vd Vr Pd).
  - exact (round_trip_down is_valid_expiry' d r Vd Vr Pd).
Qed.

Lemma gap_up P d x r :
  valid_date d -> valid_date x -> valid_date r -> d <= x < r ->
  returns (fun n => walk P 1 n d) r -> returns (fun n => walk P 1 n x) r.
Proof.
  intros Vd Vx Vr Hx R. apply walk_up_returns; trivial.
  apply (nearest_after_gap P d x r); trivial.
  now apply (walk_up_returns P d r Vd Vr).
Qed.

Lemma gap_down P d x r :
  valid_date d -> valid_date x -> valid_date r -> r < x <= d ->
  returns (fun n => walk P (-1) n d) r -> returns (fun n => walk P (-1) n x) r.
Proof.
  intros Vd Vx Vr Hx R. apply walk_down_returns; trivial.
  apply (nearest_before_gap P d x r); trivial.
  now apply (walk_down_returns P d r Vd Vr).
Qed.

(** X7.  A walk gives the same answer from every date of the gap it
    crosses: if the next business day of [d] is [r], it is also the next
    business day of every date from [d] up to the eve of [r]; likewise
    backwards, and for valid spots and valid expiries. *)
Theorem walks_constant_on_gap (d x r : datetime)
  (Vd : valid_date d) (Vx : valid_date x) (Vr : valid_date r) :
  (d <= x < r ->
   (returns (fun n => next_business_day' n d) r ->
    returns (fun n => next_business_day' n x) r)
   /\ (returns (fun n => next_valid_spot' n d) r ->
       returns (fun n => next_valid_spot' n x) r)
   /\ (returns (fun n => next_valid_expiry' n d) r ->
       returns (fun n => next_valid_expiry' n x) r))
  /\ (r < x <= d ->
      (returns (fun n => prev_business_day' n d) r ->
       returns (fun n => prev_business_day' n x) r)
      /\ (returns (fun n => prev_valid_spot' n d) r ->
          returns (fun n => prev_valid_spot' n x) r)
      /\ (returns (fun n => prev_valid_expiry' n d) r ->
          returns (fun n => prev_valid_expiry' n x) r)).
Proof.
  split; intros Hx; (split; [ | split ]).
  - exact (gap_up is_business_day' d x r Vd Vx Vr Hx).
  - exact (gap_up is_valid_spot' d x r Vd Vx Vr Hx).
  - exact (gap_up is_valid_expiry' d x r Vd Vx Vr Hx).
  - exact (gap_down is_business_day' d x r Vd Vx Vr Hx).
  - exact (gap_down is_valid_spot' d x r Vd Vx Vr Hx).
  - exact (gap_down is_valid_expiry' d x r Vd Vx Vr Hx).
Qed.

(** X8.  The walks keep the order of dates: from a later date a walk never
    returns an earlier date than from an earlier one. *)
Theorem walks_monotone (fuel fuel' : nat) (d d' r r' : datetime)
  (Hd : d <= d') :
  (next_business_day' fuel d = Ok r -> next_business_day' fuel' d' = Ok r' ->
   r <= r')
  /\ (prev_business_day' fuel d = Ok r -> prev_business_day' fuel' d' = Ok r' ->
      r <= r')
  /\ (next_valid_spot' fuel d = Ok r -> next_valid_spot' fuel' d' = Ok r' ->
      r <= r')
  /\ (prev_valid_spot' fuel d = Ok r -> prev_valid_spot' fuel' d' = Ok r' ->
      r <= r')
  /\ (next_valid_expiry' fuel d = Ok r -> next_valid_expiry' fuel' d' = Ok r' ->
      r <= r')
  /\ (prev_valid_expiry' fuel d = Ok r -> prev_valid_expiry' fuel' d' = Ok r' ->
      r <= r').
Proof.
  repeat match goal with |- _ /\ _ => split end; intros H H'.
  - apply (walk_up_sound is_business_day') in H as (H & _), H' as (H' & _).
    exact (nearest_after_mono _ _ _ _ _ H H' Hd).
  - apply (walk_down_sound is_business_day') in H as (H & _), H' as (H' & _).
    exact (nearest_before_mono _ _ _ _ _ H H' Hd).
  - apply (walk_up_sound is_valid_spot') in H as (H & _), H' as (H' & _).
    exact (nearest_after_mono _ _ _ _ _ H H' Hd).
  - apply (walk_down_sound is_valid_spot') in H as (H & _), H' as (H' & _).
    exact (nearest_before_mono _ _ _ _ _ H H' Hd).
  - apply (walk_up_sound is_valid_expiry') in H as (H & _), H' as (H' & _).
    exact (nearest_after_mono _ _ _ _ _ H H' Hd).
  - apply (walk_down_sound is_valid_expiry') in H as (H & _), H' as (H' & _).
    exact (nearest_before_mono _ _ _ _ _ H H' Hd).
Qed.

Lemma spot_from_horizon_inv (fuel : nat) (h s : datetime) :
  spot_from_horizon country_holidays self fuel h = Ok s ->
  is_business_day' h = Ok true
  /\ is_valid_spot' s = Ok true /\ valid_date s
  /\ (if PyStr.mem (ccy self) fast_settling then h + 1 <= s else h + 2 <= s).
Proof.
  unfold spot_from_horizon.
  destruct (is_business_day' h) as [ [ | ] | | ]; cbn [bind assert];
    try discriminate.
  intros H. split; trivial.
  destruct (PyStr.mem (ccy self) fast_settling).
  - apply (walk_up_sound is_valid_spot') in H as ((L & T & _) & V & _).
    repeat split; trivial; try apply V. lia.
  - apply bind_ok in H as (b & Hb & Hs).
    apply (walk_up_sound is_business_day') in Hb as ((Lb & _) & _).
    apply (walk_up_sound is_valid_spot') in Hs as ((L & T & _) & V & _).
    repeat split; trivial; try apply V. lia.
Qed.

Lemma horizon_from_spot_inv (fuel : nat) (s e : datetime) :
  horizon_from_spot country_holidays self fuel s = Ok e ->
  is_valid_spot' s = Ok true
  /\ is_valid_expiry' e = Ok true /\ valid_date e
  /\ (if PyStr.mem (ccy self) fast_settling then e <= s - 1 else e <= s - 2).
Proof.
  unfold horizon_from_spot.
  destruct (is_valid_spot' s) as [ [ | ] | | ]; cbn [bind assert];
    try discriminate.
  intros H. split; trivial.
  destruct (PyStr.mem (ccy self) fast_settling).
  - apply (walk_down_sound is_valid_expiry') in H as ((L & T & _) & V & _).
    repeat split; trivial; try apply V. lia.
  - apply bind_ok in H as (b & Hb & He).
    apply (walk_down_sound is_business_day') in Hb as ((Lb & _) & _).
    apply (walk_down_sound is_valid_expiry') in He as ((L & T & _) & V & _).
    repeat split; trivial; try apply V. lia.
Qed.

(** X9.  Whatever [spot_from_horizon] returns is a valid spot - a business
    day of the pair that is no US holiday - and lies at least one day
    after the horizon date for a fast-settling pair and at least two days
    after it for any other pair. *)
Theorem spot_from_horizon_bounds (fuel : nat) (h s : datetime)
  (H : spot_from_horizon country_holidays self fuel h = Ok s) :
  is_valid_spot' s = Ok true
  /\ is_business_day' s = Ok true
  /\ country_holidays "US" s = false
  /\ valid_date s
  /\ (In (ccy self) fast_settling -> h + 1 <= s)
  /\ (~ In (ccy self) fast_settling -> h + 2 <= s).
Proof.
  apply spot_from_horizon_inv in H as (_ & T & V & B).
  destruct (is_valid_spot_true s T) as (Bd & Us).
  repeat split; trivial; try apply V; rewrite <- mem_In; intros F.
  - now rewrite F in B.
  - destruct (PyStr.mem (ccy self) fast_settling); [ now elim F | trivial ].
Qed.

(** X10.  Whatever [horizon_from_spot] returns is a valid expiry date and
    lies at least one day before the spot date for a fast-settling pair
    and at least two days before it for any other pair; it need not be a
    business day. *)
Theorem horizon_from_spot_bounds (fuel : nat) (s e : datetime)
  (H : horizon_from_spot country_holidays self fuel s = Ok e) :
  is_valid_expiry' e = Ok true
  /\ valid_date e
  /\ (In (ccy self) fast_settling -> e <= s - 1)
  /\ (~ In (ccy self) fast_settling -> e <= s - 2).
Proof.
  apply horizon_from_spot_inv in H as (_ & T & V & B).
  repeat split; trivial; try apply V; rewrite <- mem_In; intros F.
  - now rewrite F in B.
  - destruct (PyStr.mem (ccy self) fast_settling); [ now elim F | trivial ].
Qed.

End MoreEngineFacts.

(** ** Tenor resolution *)

Lemma last_char_app (a : string) (c : ascii) :
  PyStr.last_char (a ++ String c EmptyString) = Ok c.
Proof.
  induction a as [ | x a IH]; simpl; trivial.
  rewrite IH. destruct a; reflexivity.
Qed.

Lemma but_last_app (a : string) (c : ascii) :
  PyStr.but_last (a ++ String c EmptyString) = a.
Proof.
  induction a as [ | x a IH]; simpl; trivial.
  rewrite IH. destruct a; reflexivity.
Qed.

Section MoreTenorFacts.

Variable country_holidays : string -> datetime -> bool.
Variable self : TenorDates.

Abbreviation is_valid_spot' := (is_valid_spot country_holidays self).
Abbreviation is_valid_expiry' := (is_valid_expiry country_holidays self).
Abbreviation expiry_from_tenor' := (expiry_from_tenor country_holidays self).

Lemma expiry_from_days_inv (fuel : nat) (h days e : Z) :
  expiry_from_days country_holidays self fuel h days = Ok e ->
  is_valid_expiry' e = Ok true /\ h + days <= e
  /\ (forall x, h + days <= x < e -> is_valid_expiry' x = Ok false)
  /\ valid_date e.
Proof.
  unfold expiry_from_days. intros H.
  apply bind_ok in H as (d & Hd & H).
  apply add_days_inv in Hd as (-> & V).
  destruct (is_valid_expiry' (h + days)) as [ [ | ] | | ] eqn:E;
    cbn [bind] in H; try discriminate.
  - inversion H; subst e.
    split; [ trivial | split; [ lia | split; [ intros x Hx; lia | trivial ] ] ].
  - apply (walk_up_sound is_valid_expiry') in H as ((L & T & N) & V' & _).
    split; [ trivial | split; [ lia | split; [ | trivial ] ] ].
    intros x Hx. destruct (Z.eq_dec x (h + days)) as [-> | Hne]; trivial.
    apply N. lia.
Qed.

Lemma roll_back_valid (fuel iters : nat) (spot_date : datetime) (n_months : Z) :
  forall dd r,
    is_valid_spot' dd = Ok true ->
    roll_back country_holidays self fuel iters spot_date n_months dd = Ok r ->
    is_valid_spot' r = Ok true /\ r <= dd.
Proof.
  induction iters as [ | iters IH]; intros dd r V H; simpl in H;
    destruct (n_months <? month dd - month spot_date);
    try discriminate; try (inversion H; subst; split; trivial; lia).
  apply bind_ok in H as (dd' & Hp & H).
  apply (walk_down_sound is_valid_spot') in Hp as ((L & T & _) & _).
  destruct (IH _ _ T H). split; trivial. lia.
Qed.

(** X11.  The delivery date of a tenor in months or years is always a
    valid spot date; its month number exceeds that of the spot date by at
    most the number of months; and when the spot date moved by the months
    is itself a valid spot within that bound, it is the delivery date. *)
Theorem delivery_is_valid_spot (fuel : nat) (spot_date : datetime)
  (n_months : Z) (r : datetime)
  (H : delivery_from_spot country_holidays self fuel spot_date n_months = Ok r) :
  is_valid_spot' r = Ok true
  /\ month r - month spot_date <= n_months
  /\ (exists moved, add_months spot_date n_months = Ok moved
        /\ (is_valid_spot' moved = Ok true ->
            month moved - month spot_date <= n_months -> r = moved)
        /\ (is_valid_spot' moved = Ok true -> r <= moved)).
Proof.
  split; [ | split ].
  - unfold delivery_from_spot in H.
    apply bind_ok in H as (d1 & _ & H).
    apply bind_ok in H as (b & Hb & H).
    apply bind_ok in H as (d2 & Hd2 & H).
    apply (roll_back_valid fuel fuel spot_date n_months d2 r); trivial.
    destruct b; cbn [negb] in Hd2.
    + inversion Hd2; now subst.
    + now apply (walk_up_sound is_valid_spot') in Hd2 as ((_ & T & _) & _).
  - now apply delivery_from_spot_gap in H.
  - unfold delivery_from_spot in H.
    apply bind_ok in H as (d1 & Hd1 & H).
    exists d1. split; trivial.
    apply bind_ok in H as (b & Hb & H).
    split.
    + intros V G. rewrite V in Hb. inversion Hb; subst b.
      cbn [negb bind] in H.
      destruct fuel; simpl in H;
        destruct (Z.ltb_spec n_months (month d1 - month spot_date));
        try lia; now inversion H.
    + intros V. rewrite V in Hb. inversion Hb; subst b.
      cbn [negb bind] in H.
      now apply (roll_back_valid fuel fuel spot_date n_months d1 r) in H.
Qed.

Lemma expiry_from_months_inv (fuel : nat) (h n e : Z) :
  expiry_from_months country_holidays self fuel h n = Ok e ->
  is_valid_expiry' e = Ok true /\ valid_date e.
Proof.
  unfold expiry_from_months. intros H.
  apply bind_ok in H as (s & _ & H).
  apply bind_ok in H as (d & _ & H).
  apply bind_ok in H as (x & Hx & H).
  apply horizon_from_spot_inv in Hx as (_ & _ & V & _).
  destruct (is_valid_expiry' x) as [ [ | ] | | ] eqn:E;
    cbn [bind] in H; try discriminate.
  - inversion H; now subst.
  - now apply (walk_down_sound is_valid_expiry') in H as ((_ & T & _) & V' & _).
Qed.

Lemma expiry_from_tenor_valid (fuel : nat) (h : datetime) (tenor : string)
  (e : datetime) :
  expiry_from_tenor' fuel h tenor = Ok e ->
  is_valid_expiry' e = Ok true /\ valid_date e.
Proof.
  unfold expiry_from_tenor. intros H.
  destruct (String.eqb tenor "ON").
  - now apply (walk_up_sound is_valid_expiry') in H as ((_ & T & _) & V & _).
  - apply bind_ok in H as (c & _ & H).
    destruct (Ascii.eqb c "D").
    { apply bind_ok in H as (n & _ & H).
      now apply expiry_from_days_inv in H as (T & _ & _ & V). }
    destruct (Ascii.eqb c "W").
    { apply bind_ok in H as (n & _ & H).
      now apply expiry_from_days_inv in H as (T & _ & _ & V). }
    destruct (Ascii.eqb c "M" || Ascii.eqb c "Y"); [ | discriminate ].
    apply bind_ok in H as (n & _ & H).
    now apply expiry_from_months_inv in H.
Qed.

(** X12.  Every date that [expiry_from_tenor] returns, for whatever tenor,
    is a valid expiry date of the pair, hence a weekday other than the
    first of January, and lies in the range of [datetime]. *)
Theorem expiry_from_tenor_is_valid_expiry (fuel : nat) (h : datetime)
  (tenor : string) (e : datetime)
  (H : expiry_from_tenor' fuel h tenor = Ok e) :
  is_valid_expiry' e = Ok true
  /\ is_weekday e = true
  /\ ~ (day e = 1 /\ month e = 1)
  /\ valid_date e.
Proof.
  apply expiry_from_tenor_valid in H as (T & V).
  split; [ exact T | ]. split; [ | split; [ | exact V ] ].
  - revert T. unfold is_valid_expiry.
    repeat (destruct (country_code _); cbn [bind]; try discriminate).
    intros E. injection E as E.
    apply andb_true_iff in E as (E & _). now apply andb_true_iff in E as (E & _).
  - revert T. unfold is_valid_expiry.
    repeat (destruct (country_code _); cbn [bind]; try discriminate).
    intros E. injection E as E.
    apply andb_true_iff in E as (E & _). apply andb_true_iff in E as (_ & E).
    intros (D & M). rewrite D, M in E. discriminate.
Qed.

(** X13.  In the branch for months and years the last test never fails:
    [horizon_from_spot] only returns valid expiry dates, so the expiry is
    the horizon date of the delivery date and the step back to a previous
    valid expiry is never taken. *)
Theorem months_branch_is_horizon_of_delivery (fuel : nat) (h n : Z) :
  expiry_from_months country_holidays self fuel h n
  = (spot_date <- spot_from_horizon country_holidays self fuel h ;;
     delivery_date <- delivery_from_spot country_holidays self fuel
                        spot_date n ;;
     horizon_from_spot country_holidays self fuel delivery_date).
Proof.
  unfold expiry_from_months.
  destruct (spot_from_horizon _ _ _ _) as [s | | ]; cbn [bind]; trivial.
  destruct (delivery_from_spot _ _ _ _ _) as [d | | ]; cbn [bind]; trivial.
  destruct (horizon_from_spot _ _ _ _) as [x | | ] eqn:E; cbn [bind]; trivial.
  apply horizon_from_spot_inv in E as (_ & T & _). now rewrite T.
Qed.

(** X14.  The overnight expiry is strictly after the horizon date; the
    expiry of a tenor of [n] days is the first valid expiry date from
    [n] days after the horizon date on, and that of [n] weeks the first
    one from [7 n] days after it on. *)
Theorem expiry_not_before_tenor (fuel : nat) (h : datetime) (tenor : string)
  (e : datetime) (H : expiry_from_tenor' fuel h tenor = Ok e) :
  (tenor = "ON" ->
   h < e /\ forall x, h < x < e -> is_valid_expiry' x = Ok false)
  /\ (forall n, PyStr.last_char tenor = Ok "D"%char ->
        PyStr.int (PyStr.but_last tenor) = Ok n ->
        h + n <= e
        /\ forall x, h + n <= x < e -> is_valid_expiry' x = Ok false)
  /\ (forall n, PyStr.last_char tenor = Ok "W"%char ->
        PyStr.int (PyStr.but_last tenor) = Ok n ->
        h + n * 7 <= e
        /\ forall x, h + n * 7 <= x < e -> is_valid_expiry' x = Ok false).
Proof.
  split; [ | split ].
  - intros ->. unfold expiry_from_tenor in H. cbn [String.eqb Ascii.eqb Bool.eqb] in H.
    apply (walk_up_sound is_valid_expiry') in H as ((L & _ & N) & _). auto.
  - intros n L I. unfold expiry_from_tenor in H.
    rewrite (last_char_not_ON _ _ L) in H by discriminate.
    rewrite L, I in H. cbn [bind Ascii.eqb Bool.eqb] in H.
    now apply expiry_from_days_inv in H as (_ & B & N & _).
  - intros n L I. unfold expiry_from_tenor in H.
    rewrite (last_char_not_ON _ _ L) in H by discriminate.
    rewrite L, I in H. cbn [bind Ascii.eqb Bool.eqb] in H.
    now apply expiry_from_days_inv in H as (_ & B & N & _).
Qed.

(** X15.  Only the number that a tenor spells matters, not how it is
    spelt, and the units convert: two tenors with the same unit and equal
    numbers give the same result, a tenor of [n] weeks is the tenor of
    [7 n] days, and a tenor of [n] years is the tenor of [12 n] months. *)
Theorem tenor_units_convert (fuel : nat) (h : datetime) (a b : string)
  (n : Z) (Ha : PyStr.int a = Ok n) :
  (PyStr.int b = Ok n ->
   forall u, In u ["D"; "W"; "M"; "Y"]%char ->
     expiry_from_tenor' fuel h (a ++ String u EmptyString)
     = expiry_from_tenor' fuel h (b ++ String u EmptyString))
  /\ (PyStr.int b = Ok (n * 7) ->
      expiry_from_tenor' fuel h (a ++ "W")
      = expiry_from_tenor' fuel h (b ++ "D"))
  /\ (PyStr.int b = Ok (n * 12) ->
      expiry_from_tenor' fuel h (a ++ "Y")
      = expiry_from_tenor' fuel h (b ++ "M")).
Proof.
  assert (E : forall (t : string) (u : ascii), u <> "N"%char ->
            expiry_from_tenor' fuel h (t ++ String u EmptyString)
            = (if Ascii.eqb u "D" then
                 k <- PyStr.int t ;;
                 expiry_from_days country_holidays self fuel h k
               else if Ascii.eqb u "W" then
                 k <- PyStr.int t ;;
                 expiry_from_days country_holidays self fuel h (k * 7)
               else if Ascii.eqb u "M" || Ascii.eqb u "Y" then
                 m <- (if Ascii.eqb u "M" then PyStr.int t
                       else k <- PyStr.int t ;; Ok (k * 12)) ;;
                 expiry_from_months country_holidays self fuel h m
               else Raise (InputError invalid_tenor_message))).
  { intros t u Hu. unfold expiry_from_tenor.
    rewrite (last_char_not_ON _ u (last_char_app t u) Hu).
    rewrite last_char_app, but_last_app. reflexivity. }
  split; [ | split ].
  - intros Hb u Hu. rewrite !E.
    + now rewrite Ha, Hb.
    + simpl in Hu. destruct Hu as [<- | [<- | [<- | [<- | []]]]]; discriminate.
    + simpl in Hu. destruct Hu as [<- | [<- | [<- | [<- | []]]]]; discriminate.
  - intros Hb. rewrite !E by discriminate. now rewrite Ha, Hb.
  - intros Hb. rewrite !E by discriminate. now rewrite Ha, Hb.
Qed.

End MoreTenorFacts.

(** ** Business-day ranges *)

Lemma date_span_nil (a b : Z) : b < a -> PyFmt.date_span a b = [].
Proof.
  intros H. unfold PyFmt.date_span.
  replace (Z.to_nat (b - a + 1)) with 0%nat by lia. reflexivity.
Qed.

Lemma date_span_cons (a b : Z) :
  a <= b -> PyFmt.date_span a b = a :: PyFmt.date_span (a + 1) b.
Proof.
  intros H. unfold PyFmt.date_span.
  replace (Z.to_nat (b - a + 1)) with (S (Z.to_nat (b - (a + 1) + 1))) by lia.
  cbn [seq map]. f_equal; [ lia | ].
  rewrite <- seq_shift, map_map. apply map_ext. intros i. lia.
Qed.

(** Induction on the length of a span of dates. *)
Lemma date_span_ind (Q : Z -> Z -> Prop) :
  (forall a b, b < a -> Q a b) ->
  (forall a b, a <= b -> Q (a + 1) b -> Q a b) ->
  forall a b, Q a b.
Proof.
  intros Hnil Hcons a b.
  remember (Z.to_nat (b - a + 1)) as n eqn:En.
  revert a En. induction n as [ | n IH]; intros a En.
  - apply Hnil. lia.
  - apply Hcons; [ lia | ]. apply IH. lia.
Qed.

Lemma In_date_span (a b x : Z) : In x (PyFmt.date_span a b) <-> a <= x <= b.
Proof.
  revert a b. apply (date_span_ind (fun a b =>
    In x (PyFmt.date_span a b) <-> a <= x <= b)); intros a b H.
  - rewrite date_span_nil by trivial. simpl. lia.
  - intros IH. rewrite date_span_cons by trivial. simpl. rewrite IH. lia.
Qed.

(** Checking a nearest date by running over the dates in between. *)
Lemma nearest_after_check P d r :
  d < r -> P r = Ok true ->
  forallb (fun x => negb (holds P x) && holds (fun y => b <- P y ;; Ok (negb b)) x)
    (PyFmt.date_span (d + 1) (r - 1)) = true ->
  nearest_after P d r.
Proof.
  intros L T F. split; [ trivial | split; trivial ].
  intros x Hx. rewrite forallb_forall in F.
  assert (I : d + 1 <= x <= r - 1) by lia.
  apply In_date_span in I. specialize (F x I).
  unfold holds in F. destruct (P x) as [ [ | ] | | ]; simpl in F;
    congruence.
Qed.

Lemma nearest_before_check P d r :
  r < d -> P r = Ok true ->
  forallb (fun x => negb (holds P x) && holds (fun y => b <- P y ;; Ok (negb b)) x)
    (PyFmt.date_span (r + 1) (d - 1)) = true ->
  nearest_before P d r.
Proof.
  intros L T F. split; [ trivial | split; trivial ].
  intros x Hx. rewrite forallb_forall in F.
  assert (I : r + 1 <= x <= d - 1) by lia.
  apply In_date_span in I. specialize (F x I).
  unfold holds in F. destruct (P x) as [ [ | ] | | ]; simpl in F;
    congruence.
Qed.

Lemma date_span_sorted (a b : Z) : StronglySorted Z.lt (PyFmt.date_span a b).
Proof.
  revert a b. apply (date_span_ind (fun a b =>
    StronglySorted Z.lt (PyFmt.date_span a b))); intros a b H.
  - rewrite date_span_nil by trivial. constructor.
  - intros IH. rewrite date_span_cons by trivial. constructor; trivial.
    apply Forall_forall. intros x Hx. apply In_date_span in Hx. lia.
Qed.

Lemma date_span_app (a b c : Z) :
  a <= b + 1 -> b <= c ->
  PyFmt.date_span a c
  = (PyFmt.date_span a b ++ PyFmt.date_span (b + 1) c)%list.
Proof.
  revert a b. apply (date_span_ind (fun a b =>
    a <= b + 1 -> b <= c ->
    PyFmt.date_span a c
    = (PyFmt.date_span a b ++ PyFmt.date_span (b + 1) c)%list));
    intros a b H.
  - intros H1 H2. rewrite (date_span_nil a b) by trivial.
    replace (b + 1) with a by lia. reflexivity.
  - intros IH H1 H2. rewrite (date_span_cons a c), (date_span_cons a b) by lia.
    simpl. f_equal. apply IH; lia.
Qed.

Lemma filter_result_ok {A : Type} (P : A -> result bool) (l r : list A) :
  PyFmt.filter_result P l = Ok r ->
  r = filter (holds P) l /\ forall x, In x l -> exists b, P x = Ok b.
Proof.
  revert r. induction l as [ | x l IH]; simpl; intros r H.
  - inversion H. split; [ reflexivity | intros x [] ].
  - apply bind_ok in H as (b & Hb & H).
    apply bind_ok in H as (r' & Hr & H).
    destruct (IH r' Hr) as (-> & A'). inversion H; subst r.
    split.
    + cbn [filter].
      replace (holds P x) with b
        by (unfold holds; rewrite Hb; now destruct b).
      reflexivity.
    + intros y [<- | Hy]; eauto.
Qed.

Lemma filter_result_all {A : Type} (P : A -> result bool) (l : list A) :
  (forall x, In x l -> exists b, P x = Ok b) ->
  PyFmt.filter_result P l = Ok (filter (holds P) l).
Proof.
  induction l as [ | x l IH]; simpl; intros H; trivial.
  destruct (H x (or_introl eq_refl)) as (b & Hb).
  rewrite Hb, IH by auto. cbn [bind filter].
  replace (holds P x) with b by (unfold holds; rewrite Hb; now destruct b).
  reflexivity.
Qed.

Lemma filter_result_app {A : Type} (P : A -> result bool) (l1 l2 : list A) :
  PyFmt.filter_result P (l1 ++ l2)%list
  = (r1 <- PyFmt.filter_result P l1 ;;
     r2 <- PyFmt.filter_result P l2 ;;
     Ok (r1 ++ r2)%list).
Proof.
  induction l1 as [ | x l1 IH]; simpl.
  - destruct (PyFmt.filter_result P l2); reflexivity.
  - destruct (P x) as [b | | ]; simpl; trivial. rewrite IH.
    destruct (PyFmt.filter_result P l1) as [r1 | | ]; simpl; trivial.
    destruct (PyFmt.filter_result P l2) as [r2 | | ]; simpl; trivial.
    now destruct b.
Qed.

Lemma filter_sorted {A : Type} (R : A -> A -> Prop) (p : A -> bool)
  (l : list A) :
  StronglySorted R l -> StronglySorted R (filter p l).
Proof.
  induction 1 as [ | x l S IH F]; simpl; [ constructor | ].
  destruct (p x); trivial. constructor; trivial.
  apply Forall_forall. intros y Hy. apply filter_In in Hy as (Hy & _).
  rewrite Forall_forall in F. auto.
Qed.

Section RangeFacts.

Variable country_holidays : string -> datetime -> bool.
Variable self : TenorDates.

Abbreviation is_business_day' := (is_business_day country_holidays self).
Abbreviation bdate_range' := (bdate_range country_holidays self).

Lemma is_business_day_weekday (d : datetime) :
  is_business_day' d = Ok true -> is_weekday d = true.
Proof.
  unfold is_business_day.
  destruct (PyStr.contains _ _);
    repeat (destruct (country_code _); cbn [bind]; try discriminate);
    intros H; injection H as E;
    repeat (apply andb_true_iff in E as (E & _)); exact E.
Qed.

Lemma is_business_day_uniform (d d' : datetime) (b : bool) :
  is_business_day' d = Ok b -> exists b', is_business_day' d' = Ok b'.
Proof.
  unfold is_business_day.
  destruct (PyStr.contains _ _);
    repeat (destruct (country_code _); cbn [bind]; try discriminate);
    eauto.
Qed.

Lemma bdate_range_inv (start_date end_date : datetime) (l : list datetime) :
  bdate_range' start_date end_date = Ok l ->
  (forall x, In x l <->
             start_date <= x <= end_date /\ is_business_day' x = Ok true)
  /\ StronglySorted Z.lt l.
Proof.
  unfold bdate_range, PyFmt.pd_bdate_range. intros H.
  apply filter_result_ok in H as (-> & _). split.
  - intros x. rewrite !filter_In, In_date_span. unfold holds. split.
    + intros ((R & _) & T).
      destruct (is_business_day' x) as [ [ | ] | | ]; try discriminate.
      auto.
    + intros (R & T). rewrite T.
      auto using is_business_day_weekday.
  - apply filter_sorted, filter_sorted, date_span_sorted.
Qed.

(** X16.  When [bdate_range] returns, its list holds exactly the business
    days of the pair from the start date to the end date, both included,
    in strictly ascending order, so without repetition; all of them are
    weekdays. *)
Theorem bdate_range_spec (start_date end_date : datetime)
  (l : list datetime) (H : bdate_range' start_date end_date = Ok l) :
  (forall x, In x l <->
             start_date <= x <= end_date /\ is_business_day' x = Ok true)
  /\ StronglySorted Z.lt l
  /\ NoDup l
  /\ Forall (fun x => is_weekday x = true) l.
Proof.
  apply bdate_range_inv in H as (I & S).
  split; [ exact I | split; [ exact S | split ] ].
  - clear I. induction S as [ | x l S IH F]; constructor; trivial.
    intros Hx. rewrite Forall_forall in F. apply F in Hx. lia.
  - apply Forall_forall. intros x Hx.
    apply I in Hx as (_ & T). now apply is_business_day_weekday.
Qed.

(** X17.  For a single day the range is that day when it is a business
    day and empty when it is not. *)
Theorem bdate_range_single_day (d : datetime) (b : bool)
  (H : is_business_day' d = Ok b) :
  bdate_range' d d = Ok (if b then [d] else []).
Proof.
  unfold bdate_range, PyFmt.pd_bdate_range.
  rewrite date_span_cons, date_span_nil by lia. simpl.
  destruct (is_weekday d) eqn:W; simpl.
  - rewrite H. reflexivity.
  - destruct b; trivial. apply is_business_day_weekday in H. congruence.
Qed.

(** X18.  Ranges compose: the business days from [a] to [c] are those from
    [a] to [b] followed by those from the day after [b] to [c], and an
    exception of either part is the exception of the whole. *)
Theorem bdate_range_concat (a b c : datetime)
  (Hab : a <= b + 1) (Hbc : b <= c) :
  bdate_range' a c
  = (l1 <- bdate_range' a b ;;
     l2 <- bdate_range' (b + 1) c ;;
     Ok (l1 ++ l2)%list).
Proof.
  unfold bdate_range, PyFmt.pd_bdate_range.
  rewrite (date_span_app a b c Hab Hbc), filter_app.
  apply filter_result_app.
Qed.

Lemma bdate_range_no_weekday (start_date end_date : datetime) :
  (forall x, start_date <= x <= end_date -> is_weekday x = false) ->
  bdate_range' start_date end_date = Ok [].
Proof.
  intros H. unfold bdate_range, PyFmt.pd_bdate_range.
  assert (F : forall x, In x (PyFmt.date_span start_date end_date) ->
                        is_weekday x = false)
    by (intros x Hx; apply H; now apply In_date_span).
  assert (E : filter is_weekday (PyFmt.date_span start_date end_date) = []).
  { induction (PyFmt.date_span start_date end_date) as [ | x l IH];
      simpl; trivial.
    rewrite (F x) by now left. apply IH. intros y Hy. apply F. now right. }
  now rewrite E.
Qed.

(** X19.  Between two dates that pandas can hold, a range that holds no
    weekday - an end date before the start date, or a weekend - gives
    the empty list without consulting any calendar, also on a pair for
    which [is_business_day] raises. *)
Theorem bdate_range_without_weekday (start_date end_date : datetime)
  (Hs : in_pandas_range start_date) (He : in_pandas_range end_date)
  (H : forall x, start_date <= x <= end_date -> is_weekday x = false) :
  bdate_range' start_date end_date = Ok []
  /\ (end_date < start_date -> bdate_range' start_date end_date = Ok []).
Proof.
  split; [ now apply bdate_range_no_weekday | ].
  intros L. apply bdate_range_no_weekday. intros x Hx. lia.
Qed.

(** X20.  The first date of the range that starts on the day after [d] is
    the next business day of [d]. *)
Theorem bdate_range_head_is_next_business_day (d end_date x : datetime)
  (l : list datetime) (Vd : valid_date d) (Ve : valid_date end_date)
  (H : bdate_range' (d + 1) end_date = Ok (x :: l)) :
  returns (fun n => next_business_day country_holidays self n d) x.
Proof.
  apply bdate_range_inv in H as (I & S).
  destruct (proj1 (I x) (or_introl eq_refl)) as (R & T).
  assert (Vx : valid_date x) by (unfold valid_date in *; lia).
  apply (walk_up_returns is_business_day' d x Vd Vx).
  split; [ lia | split; trivial ].
  intros y Hy.
  destruct (is_business_day_uniform x y true T) as ([ | ] & Hb); trivial.
  assert (In y (x :: l)) as [-> | Hl] by (apply I; split; [ lia | trivial ]).
  - lia.
  - inversion S as [ | ? ? _ F]; subst.
    rewrite Forall_forall in F. apply F in Hl. lia.
Qed.

End RangeFacts.

(** X21.  Between two dates that pandas can hold, [bdate_range] raises on
    USDUSD alone, and there exactly when the range holds a weekday; on
    every other pair of supported currencies it returns a list. *)
Theorem bdate_range_raises_only_on_USDUSD
  (country_holidays : string -> datetime -> bool)
  (c1 c2 : string) (start_date end_date : datetime)
  (H1 : In c1 supported_ccy) (H2 : In c2 supported_ccy)
  (Hs : in_pandas_range start_date) (He : in_pandas_range end_date) :
  (~ (c1 = "USD" /\ c2 = "USD") ->
   exists l, bdate_range country_holidays (pair c1 c2) start_date end_date
             = Ok l)
  /\ (forall x, start_date <= x <= end_date -> is_weekday x = true ->
      bdate_range country_holidays USDUSD start_date end_date
      = Raise (KeyError ""))
  /\ ((forall x, start_date <= x <= end_date -> is_weekday x = false) ->
      bdate_range country_holidays USDUSD start_date end_date = Ok []).
Proof.
  split; [ | split; [ | apply bdate_range_no_weekday ] ].
  - intros N. eexists. unfold bdate_range. apply filter_result_all.
    intros x _. rewrite is_business_day_pair by assumption.
    destruct (String.eqb_spec c1 "USD"), (String.eqb_spec c2 "USD");
      try (elim N; now split); eauto.
  - intros x R W. unfold bdate_range.
    assert (I : In x (PyFmt.pd_bdate_range start_date end_date))
      by (apply filter_In; split; [ now apply In_date_span | trivial ]).
    destruct (PyFmt.pd_bdate_range start_date end_date) as [ | y l];
      [ destruct I | ].
    reflexivity.
Qed.

(** ** The report of the standard tenors *)

Lemma map_result_ok {A B C : Type} (g : A -> result B) (k : B -> C)
  (l : list A) (r : list C) :
  PyFmt.map_result (fun x => y <- g x ;; Ok (k y)) l = Ok r ->
  exists ys, Forall2 (fun x y => g x = Ok y) l ys /\ r = map k ys.
Proof.
  revert r. induction l as [ | x l IH]; simpl; intros r H.
  - inversion H. exists []. split; [ constructor | reflexivity ].
  - apply bind_ok in H as (z & Hz & H).
    apply bind_ok in Hz as (y & Hy & Hk). inversion Hk; subst z.
    apply bind_ok in H as (r' & Hr & H). inversion H; subst r.
    destruct (IH r' Hr) as (ys & F & ->).
    exists (y :: ys). split; [ now constructor | reflexivity ].
Qed.

Lemma Forall2_In_left {A B : Type} (R : A -> B -> Prop) (l : list A)
  (r : list B) (x : A) :
  Forall2 R l r -> In x l -> exists y, In y r /\ R x y.
Proof.
  induction 1 as [ | a b l r Hab F IH]; intros I; [ destruct I | ].
  destruct I as [<- | I].
  - exists b. split; [ now left | trivial ].
  - destruct (IH I) as (y & Hy & Ry). exists y. split; [ now right | trivial ].
Qed.

Section ReportFacts.

Variable country_holidays : string -> datetime -> bool.
Variable self : TenorDates.

Abbreviation is_business_day' := (is_business_day country_holidays self).
Abbreviation is_valid_expiry' := (is_valid_expiry country_holidays self).
Abbreviation expiry_from_tenor' := (expiry_from_tenor country_holidays self).
Abbreviation populate_expiry_dates' :=
  (populate_expiry_dates country_holidays self).

(** The dictionary of the report for the expiry dates [dates]. *)
Lemma populate_expiry_dates_inv (fuel : nat) (h : datetime) (return_df : bool)
  (r : expiry_report) :
  populate_expiry_dates' fuel h return_df = Ok r ->
  exists dates,
    Forall2 (fun t e => expiry_from_tenor' fuel h t = Ok e)
      standard_tenors dates
    /\ r = (let d := [("Horizon", [PyFmt.strftime h]);
                      ("Tenor", standard_tenors);
                      ("Expiry Date", map PyFmt.strftime dates)] in
            if return_df then ReportFrame (PyFmt.frame_of_dict d)
            else ReportDict d).
Proof.
  unfold populate_expiry_dates. intros H.
  apply bind_ok in H as (es & Hes & H).
  apply map_result_ok in Hes as (dates & F & ->).
  exists dates. split; trivial.
  destruct return_df; now inversion H.
Qed.

Lemma one_month_needs_business_day (fuel : nat) (h e : datetime) :
  expiry_from_tenor' fuel h "1M" = Ok e -> is_business_day' h = Ok true.
Proof.
  change (expiry_from_tenor' fuel h "1M")
    with (expiry_from_months country_holidays self fuel h 1).
  unfold expiry_from_months. intros H.
  apply bind_ok in H as (s & Hs & _).
  now apply spot_from_horizon_inv in Hs as (B & _).
Qed.

(** X22.  The report is produced on business days only: on any other
    horizon date the tenor 1M fails and [populate_expiry_dates] returns
    nothing, although it holds tenors (ON, 1W, 2W) that alone would
    resolve. *)
Theorem report_needs_business_day (fuel : nat) (h : datetime)
  (return_df : bool) (r : expiry_report)
  (H : populate_expiry_dates' fuel h return_df = Ok r) :
  is_business_day' h = Ok true.
Proof.
  apply populate_expiry_dates_inv in H as (dates & F & _).
  destruct (Forall2_In_left _ _ _ "1M" F) as (e & _ & He).
  - unfold standard_tenors. simpl. tauto.
  - now apply one_month_needs_business_day in He.
Qed.

(** X23.  A report lists, for the twelve standard tenors in their order,
    the formatted results of [expiry_from_tenor], all of them valid
    expiry dates, under the formatted horizon date; as a data frame it has
    one row per tenor, and the horizon date fills the first row only. *)
Theorem report_shape (fuel : nat) (h : datetime) (return_df : bool)
  (r : expiry_report)
  (H : populate_expiry_dates' fuel h return_df = Ok r) :
  exists dates,
    List.length dates = 12%nat
    /\ Forall2 (fun t e => expiry_from_tenor' fuel h t = Ok e)
         standard_tenors dates
    /\ Forall (fun e => is_valid_expiry' e = Ok true) dates
    /\ (return_df = false ->
        r = ReportDict [("Horizon", [PyFmt.strftime h]);
                        ("Tenor", standard_tenors);
                        ("Expiry Date", map PyFmt.strftime dates)])
    /\ (return_df = true ->
        exists df,
          r = ReportFrame df
          /\ PyFmt.columns df = ["Horizon"; "Tenor"; "Expiry Date"]
          /\ PyFmt.rows df
             = map (fun i =>
                      [ (if Nat.eqb i 0 then Some (PyFmt.strftime h) else None);
                        nth_error standard_tenors i;
                        option_map PyFmt.strftime (nth_error dates i) ])
                 (seq 0 12)).
Proof.
  apply populate_expiry_dates_inv in H as (dates & F & ->).
  exists dates.
  assert (L : List.length dates = 12%nat)
    by (apply Forall2_length in F; now rewrite <- F).
  split; [ exact L | split; [ exact F | split; [ | split ] ] ].
  - apply Forall_forall. intros e He.
    assert (exists t, expiry_from_tenor' fuel h t = Ok e) as (t & Ht).
    { clear L. induction F as [ | t e' l r Hte F IH]; [ destruct He | ].
      destruct He as [<- | He]; eauto. }
    now apply expiry_from_tenor_valid in Ht as (T & _).
  - now intros ->.
  - intros ->. eexists. split; [ reflexivity | split; [ reflexivity | ] ].
    do 13 (destruct dates as [ | ? dates]; try discriminate L).
    reflexivity.
Qed.

End ReportFacts.

(** ** The further properties at concrete inputs *)

Ltac ccy_ok := simpl; tauto.

Ltac nearest_ok :=
  (apply nearest_after_check || apply nearest_before_check);
  vm_compute; reflexivity.

(** X2 at USDCAD. *)
Lemma fast_settling_is_USDCAD_witness :
  In (ccy USDCAD) fast_settling <-> "USDCAD" = "USDCAD".
Proof. exact (proj1 (fast_settling_is_USDCAD "USDCAD" USDCAD eq_refl)). Defined.

(** X3 at EURUSD and USDEUR. *)
Lemma predicates_ignore_leg_order_witness :
  is_valid_spot fixed_holidays (pair "EUR" "USD") (mkdate 2014 6 11)
  = is_valid_spot fixed_holidays (pair "USD" "EUR") (mkdate 2014 6 11).
Proof.
  destruct (predicates_ignore_leg_order fixed_holidays "EUR" "USD"
              (mkdate 2014 6 11)) as (_ & A & _); [ ccy_ok | ccy_ok | ].
  exact A.
Defined.

(** X4 at USDUSD. *)
Lemma predicates_raise_only_on_USDUSD_witness :
  is_valid_spot fixed_holidays (pair "USD" "USD") (mkdate 2014 6 11)
  = Raise (KeyError "").
Proof.
  destruct (predicates_raise_only_on_USDUSD fixed_holidays "USD" "USD"
              (mkdate 2014 6 11)) as (_ & A); [ ccy_ok | ccy_ok | pandas_ok | ].
  exact (proj1 (A eq_refl eq_refl)).
Defined.

(** X5 at EURUSD on Wednesday 2014-06-11. *)
Lemma business_day_is_valid_expiry_witness :
  is_valid_expiry fixed_holidays (pair "EUR" "USD") (mkdate 2014 6 11)
  = Ok true.
Proof.
  destruct (business_day_is_valid_expiry fixed_holidays "EUR" "USD"
              (mkdate 2014 6 11)) as (A & _); [ ccy_ok | ccy_ok | | ].
  - intros (D & _). vm_compute in D. discriminate D.
  - apply A. vm_compute. reflexivity.
Defined.

(** X6 at EURUSD: Friday 2014-06-13 and Monday 2014-06-16. *)
Lemma walks_round_trip_witness :
  returns (fun n => prev_business_day fixed_holidays EURUSD n
                      (mkdate 2014 6 16)) (mkdate 2014 6 13).
Proof.
  destruct (walks_round_trip fixed_holidays EURUSD
              (mkdate 2014 6 13) (mkdate 2014 6 16))
    as (A & _); [ date_ok | date_ok | ].
  apply A; [ vm_compute; reflexivity | ].
  apply walk_up_returns; [ date_ok | date_ok | nearest_ok ].
Defined.

(** X7 at EURUSD: from Saturday 2014-06-14 as from Friday the 13th. *)
Lemma walks_constant_on_gap_witness :
  returns (fun n => next_business_day fixed_holidays EURUSD n
                      (mkdate 2014 6 14)) (mkdate 2014 6 16).
Proof.
  destruct (walks_constant_on_gap fixed_holidays EURUSD
              (mkdate 2014 6 13) (mkdate 2014 6 14) (mkdate 2014 6 16))
    as (A & _); [ date_ok | date_ok | date_ok | ].
  apply A; [ dates; lia | ].
  apply walk_up_returns; [ date_ok | date_ok | nearest_ok ].
Defined.

(** X8 at EURUSD: from Wednesday 2014-06-11 and from Friday the 13th. *)
Lemma walks_monotone_witness : mkdate 2014 6 12 <= mkdate 2014 6 16.
Proof.
  destruct (walks_monotone fixed_holidays EURUSD 5 5
              (mkdate 2014 6 11) (mkdate 2014 6 13)
              (mkdate 2014 6 12) (mkdate 2014 6 16))
    as (A & _); [ dates; lia | ].
  apply A; vm_compute; reflexivity.
Defined.

(** X9 at EURUSD, horizon 2014-06-11. *)
Lemma spot_from_horizon_bounds_witness :
  is_valid_spot fixed_holidays EURUSD (mkdate 2014 6 13) = Ok true
  /\ mkdate 2014 6 11 + 2 <= mkdate 2014 6 13.
Proof.
  destruct (spot_from_horizon_bounds fixed_holidays EURUSD 5
              (mkdate 2014 6 11) (mkdate 2014 6 13))
    as (A & _ & _ & _ & _ & B); [ vm_compute; reflexivity | ].
  split; [ exact A | apply B ].
  simpl. intros [H | [H | [H | [H | []]]]]; discriminate.
Defined.

(** X10 at EURUSD: the horizon date of the spot date Monday 2014-05-05 is
    Thursday the 1st of May, an ECB holiday - a valid expiry that is not
    a business day of the pair. *)
Lemma horizon_from_spot_bounds_witness :
  is_valid_expiry fixed_holidays EURUSD (mkdate 2014 5 1) = Ok true
  /\ is_business_day fixed_holidays EURUSD (mkdate 2014 5 1) = Ok false.
Proof.
  destruct (horizon_from_spot_bounds fixed_holidays EURUSD 5
              (mkdate 2014 5 5) (mkdate 2014 5 1))
    as (A & _); [ vm_compute; reflexivity | ].
  split; [ exact A | vm_compute; reflexivity ].
Defined.

(** X11 at EURUSD, spot date 2015-01-30 and one month. *)
Lemma delivery_is_valid_spot_witness :
  is_valid_spot fixed_holidays EURUSD (mkdate 2015 2 27) = Ok true.
Proof.
  destruct (delivery_is_valid_spot fixed_holidays EURUSD 5
              (mkdate 2015 1 30) 1 (mkdate 2015 2 27))
    as (A & _); [ vm_compute; reflexivity | ].
  exact A.
Defined.

(** X12 at EURUSD, horizon 2014-06-11 and tenor 1M. *)
Lemma expiry_from_tenor_is_valid_expiry_witness :
  is_valid_expiry fixed_holidays EURUSD (mkdate 2014 7 10) = Ok true.
Proof.
  destruct (expiry_from_tenor_is_valid_expiry fixed_holidays EURUSD 5
              (mkdate 2014 6 11) "1M" (mkdate 2014 7 10))
    as (A & _); [ vm_compute; reflexivity | ].
  exact A.
Defined.

(** X14 at EURUSD, Saturday 2014-06-14 and tenor 1W: Saturday the 21st is
    no valid expiry, Monday the 23rd is. *)
Lemma expiry_not_before_tenor_witness :
  mkdate 2014 6 14 + 1 * 7 <= mkdate 2014 6 23.
Proof.
  destruct (expiry_not_before_tenor fixed_holidays EURUSD 5
              (mkdate 2014 6 14) "1W" (mkdate 2014 6 23))
    as (_ & _ & A); [ vm_compute; reflexivity | ].
  exact (proj1 (A 1 eq_refl eq_refl)).
Defined.

(** X15 at the tenors 1Y and 12M. *)
Lemma tenor_units_convert_witness :
  expiry_from_tenor fixed_holidays EURUSD 5 (mkdate 2014 6 11) ("1" ++ "Y")
  = expiry_from_tenor fixed_holidays EURUSD 5 (mkdate 2014 6 11) ("12" ++ "M").
Proof.
  destruct (tenor_units_convert fixed_holidays EURUSD 5 (mkdate 2014 6 11)
              "1" "12" 1) as (_ & _ & A); [ reflexivity | ].
  apply A. reflexivity.
Defined.

(** X16 at EURUSD over Christmas 2014. *)
Lemma bdate_range_spec_witness :
  StronglySorted Z.lt
    [mkdate 2014 12 23; mkdate 2014 12 24; mkdate 2014 12 29].
Proof.
  destruct (bdate_range_spec fixed_holidays EURUSD
              (mkdate 2014 12 23) (mkdate 2014 12 29)
              [mkdate 2014 12 23; mkdate 2014 12 24; mkdate 2014 12 29])
    as (_ & A & _); [ vm_compute; reflexivity | ].
  exact A.
Defined.

(** X17 at EURUSD on Christmas Day 2014. *)
Lemma bdate_range_single_day_witness :
  bdate_range fixed_holidays EURUSD (mkdate 2014 12 25) (mkdate 2014 12 25)
  = Ok [].
Proof.
  apply (bdate_range_single_day fixed_holidays EURUSD (mkdate 2014 12 25)
           false).
  vm_compute. reflexivity.
Defined.

(** X18 at EURUSD: the week before Christmas 2014 and the week of it. *)
Lemma bdate_range_concat_witness :
  bdate_range fixed_holidays EURUSD (mkdate 2014 12 15) (mkdate 2014 12 28)
  = (l1 <- bdate_range fixed_holidays EURUSD
             (mkdate 2014 12 15) (mkdate 2014 12 21) ;;
     l2 <- bdate_range fixed_holidays EURUSD
             (mkdate 2014 12 21 + 1) (mkdate 2014 12 28) ;;
     Ok (l1 ++ l2)%list).
Proof.
  apply (bdate_range_concat fixed_holidays EURUSD); dates; lia.
Defined.

(** X19 at USDUSD over the weekend of 2014-06-14. *)
Lemma bdate_range_without_weekday_witness :
  bdate_range fixed_holidays USDUSD (mkdate 2014 6 14) (mkdate 2014 6 15)
  = Ok [].
Proof.
  destruct (bdate_range_without_weekday fixed_holidays USDUSD
              (mkdate 2014 6 14) (mkdate 2014 6 15)) as (A & _);
    [ pandas_ok | pandas_ok | | exact A ].
  intros x Hx. dates.
  assert (C : x = 735398 \/ x = 735399) by lia.
  destruct C as [-> | ->]; reflexivity.
Defined.

(** X20 at EURUSD from Friday 2014-06-13. *)
Lemma bdate_range_head_is_next_business_day_witness :
  returns (fun n => next_business_day fixed_holidays EURUSD n
                      (mkdate 2014 6 13)) (mkdate 2014 6 16).
Proof.
  apply (bdate_range_head_is_next_business_day fixed_holidays EURUSD
           (mkdate 2014 6 13) (mkdate 2014 6 17) (mkdate 2014 6 16)
           [mkdate 2014 6 17]); [ date_ok | date_ok | ].
  vm_compute. reflexivity.
Defined.

(** X21 at EURUSD and at USDUSD over 2014-06-14 .. 2014-06-16. *)
Lemma bdate_range_raises_only_on_USDUSD_witness :
  bdate_range fixed_holidays USDUSD (mkdate 2014 6 14) (mkdate 2014 6 16)
  = Raise (KeyError "").
Proof.
  destruct (bdate_range_raises_only_on_USDUSD fixed_holidays "EUR" "USD"
              (mkdate 2014 6 14) (mkdate 2014 6 16))
    as (_ & A & _); [ ccy_ok | ccy_ok | pandas_ok | pandas_ok | ].
  apply (A (mkdate 2014 6 16)); [ dates; lia | reflexivity ].
Defined.

(** X22 and X23 at EURUSD, horizon Wednesday 2014-06-11: the report of the
    standard tenors. *)
Lemma report_needs_business_day_witness :
  is_business_day fixed_holidays EURUSD (mkdate 2014 6 11) = Ok true.
Proof.
  apply (report_needs_business_day fixed_holidays EURUSD 30
           (mkdate 2014 6 11) false report_2014_06_11).
  vm_compute. reflexivity.
Defined.

Lemma report_shape_witness :
  exists dates,
    List.length dates = 12%nat
    /\ report_2014_06_11
       = ReportDict [("Horizon", [PyFmt.strftime (mkdate 2014 6 11)]);
                     ("Tenor", standard_tenors);
                     ("Expiry Date", map PyFmt.strftime dates)].
Proof.
  destruct (report_shape fixed_holidays EURUSD 30 (mkdate 2014 6 11) false
              report_2014_06_11) as (dates & L & _ & _ & A & _);
    [ vm_compute; reflexivity | ].
  exists dates. split; [ exact L | exact (A eq_refl) ].
Defined.
